(** * BlueALSA [src/dbus.c]: method-call dispatcher, interface skeleton
      adapter and blocking D-Bus helpers.

    The C code is embedded by explicit state passing over a [World] that
    holds everything the functions of [dbus.c] can touch: the log, the
    pending method invocations, the heap cells of detached call jobs, the
    worker threads, and the traffic handed to the bus connection. *)

From Stdlib Require Import ZArith Ascii String.
From stdpp Require Import base option list gmap strings.

Local Open Scope string_scope.
Local Open Scope Z_scope.
Set Warnings "-register-all".

(** * Part I: the embedding *)

(** ** C strings and [strcmp] *)

(** A byte of a [const char *], read as [unsigned char]. *)
Definition uchar (c : ascii) : Z := Z.of_N (N_of_ascii c).

(** What C sees behind a [const char *]: the bytes up to the first NUL. *)
Fixpoint c_str (s : string) : string :=
  match s with
  | EmptyString => EmptyString
  | String c r => if uchar c =? 0 then EmptyString else String c (c_str r)
  end.

(** [strcmp(3)]: the difference of the first pair of bytes that differ, the
    end of a string counting as the NUL byte. *)
Fixpoint strcmp (s1 s2 : string) : Z :=
  match s1, s2 with
  | EmptyString, EmptyString => 0
  | EmptyString, String c2 _ => - uchar c2
  | String c1 _, EmptyString => uchar c1
  | String c1 r1, String c2 r2 =>
      if uchar c1 =? uchar c2
      then (if uchar c1 =? 0 then 0 else strcmp r1 r2)
      else uchar c1 - uchar c2
  end.

Definition nul_free (s : string) : Prop := c_str s = s.

(** ** GVariant values, types and format strings (GLib) *)

(** The basic types, named by their type character. *)
Inductive GVariantBasic :=
| Gb | Gy | Gn | Gq | Gi | Gu | Gx | Gt | Gh | Gd | Gs | Go | Gg.

Inductive GVariantType :=
| TBasic (b : GVariantBasic)
| TVariant
| TArray (elt : GVariantType)
| TTuple (items : list GVariantType)
| TDictEntry (key value : GVariantType).

Definition basic_char (b : GVariantBasic) : ascii :=
  match b with
  | Gb => "b" | Gy => "y" | Gn => "n" | Gq => "q" | Gi => "i" | Gu => "u"
  | Gx => "x" | Gt => "t" | Gh => "h" | Gd => "d" | Gs => "s" | Go => "o"
  | Gg => "g"
  end%char.

Definition basic_of_char (c : ascii) : option GVariantBasic :=
  match c with
  | "b" => Some Gb | "y" => Some Gy | "n" => Some Gn | "q" => Some Gq
  | "i" => Some Gi | "u" => Some Gu | "x" => Some Gx | "t" => Some Gt
  | "h" => Some Gh | "d" => Some Gd | "s" => Some Gs | "o" => Some Go
  | "g" => Some Gg | _ => None
  end%char.

(** The type string of a type, as [g_variant_type_peek_string] gives it. *)
Fixpoint type_string (t : GVariantType) : string :=
  match t with
  | TBasic b => String (basic_char b) ""
  | TVariant => "v"
  | TArray elt => "a" +:+ type_string elt
  | TTuple items =>
      "(" +:+ (fix go (l : list GVariantType) : string :=
                 match l with
                 | [] => ""
                 | t :: l => type_string t +:+ go l
                 end) items +:+ ")"
  | TDictEntry key value => "{" +:+ type_string key +:+ type_string value +:+ "}"
  end.

(** [g_variant_type_string_scan]: one complete type at the head of the
    string and what follows it. The fuel bounds the nesting and the width. *)
Fixpoint scan_type (fuel : nat) (s : string) : option (GVariantType * string) :=
  match fuel with
  | O => None
  | S fuel =>
      match s with
      | EmptyString => None
      | String "v" r => Some (TVariant, r)
      | String "a" r =>
          match scan_type fuel r with
          | Some (elt, r) => Some (TArray elt, r)
          | None => None
          end
      | String "(" r =>
          match scan_items fuel r with
          | Some (items, r) => Some (TTuple items, r)
          | None => None
          end
      | String "{" (String k r) =>
          match basic_of_char k, scan_type fuel r with
          | Some b, Some (value, String "}" r) => Some (TDictEntry (TBasic b) value, r)
          | _, _ => None
          end
      | String c r =>
          match basic_of_char c with
          | Some b => Some (TBasic b, r)
          | None => None
          end
      end
  end
with scan_items (fuel : nat) (s : string) : option (list GVariantType * string) :=
  match fuel with
  | O => None
  | S fuel =>
      match s with
      | String ")" r => Some ([], r)
      | _ =>
          match scan_type fuel s with
          | Some (t, r) =>
              match scan_items fuel r with
              | Some (ts, r) => Some (t :: ts, r)
              | None => None
              end
          | None => None
          end
      end
  end.

Definition g_variant_type_new (type_string : string) : option GVariantType :=
  match scan_type (S (String.length type_string)) type_string with
  | Some (t, EmptyString) => Some t
  | _ => None
  end.

Inductive GVariant :=
| GV_boolean (b : bool)
| GV_number (t : GVariantBasic) (n : Z)
| GV_string (s : string)
| GV_object_path (s : string)
| GV_signature (s : string)
| GV_variant (v : GVariant)
| GV_array (elt : GVariantType) (items : list GVariant)
| GV_tuple (items : list GVariant)
| GV_dict_entry (key value : GVariant).

Fixpoint g_variant_get_type (v : GVariant) : GVariantType :=
  match v with
  | GV_boolean _ => TBasic Gb
  | GV_number t _ => TBasic t
  | GV_string _ => TBasic Gs
  | GV_object_path _ => TBasic Go
  | GV_signature _ => TBasic Gg
  | GV_variant _ => TVariant
  | GV_array elt _ => TArray elt
  | GV_tuple items => TTuple (List.map g_variant_get_type items)
  | GV_dict_entry key value => TDictEntry (g_variant_get_type key) (g_variant_get_type value)
  end.

Definition g_variant_get_type_string (v : GVariant) : string :=
  type_string (g_variant_get_type v).

(** GLib compares types through their type strings. *)
Definition g_variant_is_of_type (v : GVariant) (t : GVariantType) : bool :=
  String.eqb (g_variant_get_type_string v) (type_string t).

(** A [GVariantBuilder] of an array or tuple type with the children added
    so far. *)
Record GVariantBuilder := {
  gb_type : GVariantType;
  gb_children : list GVariant
}.

Definition g_variant_builder_end (b : GVariantBuilder) : option GVariant :=
  match gb_type b with
  | TArray elt => Some (GV_array elt (gb_children b))
  | TTuple _ => Some (GV_tuple (gb_children b))
  | _ => None
  end.

(** A variadic argument of [g_variant_new]. *)
Inductive g_arg :=
| Arg_string (s : string)
| Arg_int (n : Z)
| Arg_variant (v : GVariant)
| Arg_builder (b : option GVariantBuilder).

(** [g_variant_valist_new]: build the value of type [t] from the head of
    the arguments. A string takes a [const char *], a variant a
    [GVariant *], an array a [GVariantBuilder *] where [NULL] stands for
    the empty array; a builder of another type than the format asks for
    aborts ([None]), as does an argument of the wrong kind. *)
Fixpoint g_variant_valist_new (t : GVariantType) (args : list g_arg)
    : option (GVariant * list g_arg) :=
  match t with
  | TBasic Gs =>
      match args with Arg_string s :: r => Some (GV_string s, r) | _ => None end
  | TBasic Go =>
      match args with Arg_string s :: r => Some (GV_object_path s, r) | _ => None end
  | TBasic Gg =>
      match args with Arg_string s :: r => Some (GV_signature s, r) | _ => None end
  | TBasic Gb =>
      match args with Arg_int n :: r => Some (GV_boolean (negb (n =? 0)), r) | _ => None end
  | TBasic b =>
      match args with Arg_int n :: r => Some (GV_number b n, r) | _ => None end
  | TVariant =>
      match args with Arg_variant v :: r => Some (GV_variant v, r) | _ => None end
  | TArray elt =>
      match args with
      | Arg_builder None :: r => Some (GV_array elt [], r)
      | Arg_builder (Some b) :: r =>
          match g_variant_builder_end b with
          | Some v => if g_variant_is_of_type v t then Some (v, r) else None
          | None => None
          end
      | _ => None
      end
  | TTuple items =>
      match
        (fix go (l : list GVariantType) (args : list g_arg)
           : option (list GVariant * list g_arg) :=
           match l with
           | [] => Some ([], args)
           | t :: l =>
               match g_variant_valist_new t args with
               | Some (v, args) =>
                   match go l args with
                   | Some (vs, args) => Some (v :: vs, args)
                   | None => None
                   end
               | None => None
               end
           end) items args
      with
      | Some (vs, r) => Some (GV_tuple vs, r)
      | None => None
      end
  | TDictEntry key value =>
      match g_variant_valist_new key args with
      | Some (k, args) =>
          match g_variant_valist_new value args with
          | Some (v, r) => Some (GV_dict_entry k v, r)
          | None => None
          end
      | None => None
      end
  end.

Definition g_variant_new (format_string : string) (args : list g_arg) : option GVariant :=
  match g_variant_type_new format_string with
  | Some t =>
      match g_variant_valist_new t args with
      | Some (v, []) => Some v
      | _ => None
      end
  | None => None
  end.

(** What [g_variant_get] stores through its output pointers. *)
Inductive g_out :=
| Out_boolean (b : bool)
| Out_int (n : Z)
| Out_string (s : string)
| Out_variant (v : GVariant)
| Out_iter (remaining : list GVariant).

Fixpoint g_variant_valist_get (v : GVariant) : list g_out :=
  match v with
  | GV_boolean b => [Out_boolean b]
  | GV_number _ n => [Out_int n]
  | GV_string s | GV_object_path s | GV_signature s => [Out_string s]
  | GV_variant x => [Out_variant x]
  | GV_array _ items => [Out_iter items]
  | GV_tuple items => List.flat_map g_variant_valist_get items
  | GV_dict_entry key value => (g_variant_valist_get key ++ g_variant_valist_get value)%list
  end.

(** [g_variant_get(value, format, ...)]: when [value] is [NULL] or not of
    the type of the format string, GLib returns at once and stores nothing
    ([None]). *)
Definition g_variant_get (value : option GVariant) (format_string : string)
    : option (list g_out) :=
  match value with
  | None => None
  | Some v =>
      if String.eqb (g_variant_get_type_string v) format_string
      then Some (g_variant_valist_get v)
      else None
  end.

(** A [GVariantIter]: the children still to come. *)
Record GVariantIter := { iter_remaining : list GVariant }.

Definition g_variant_iter_next_value (it : GVariantIter) : option (GVariant * GVariantIter) :=
  match iter_remaining it with
  | [] => None
  | v :: r => Some (v, {| iter_remaining := r |})
  end.

(** ** GError and GDBusMessage (GIO) *)

(** A [GError]; the domain and code that GLib derives from a D-Bus error
    name are kept as that name. *)
Record GError := {
  gerror_dbus_name : option string;
  gerror_message : string
}.

(** A [GError **] argument: [None] is the [NULL] pointer, [Some slot] the
    address of a [GError *] variable holding [slot]. *)
Definition GError_out := option (option GError).

(** [g_set_error] and its kin: nothing is stored through [NULL], and a slot
    already set is kept (GLib only warns). *)
Definition g_set_error (error : GError_out) (e : GError) : GError_out :=
  match error with
  | None => None
  | Some None => Some (Some e)
  | Some (Some old) => Some (Some old)
  end.

Inductive GDBusMessageType :=
| G_DBUS_MESSAGE_TYPE_INVALID
| G_DBUS_MESSAGE_TYPE_METHOD_CALL
| G_DBUS_MESSAGE_TYPE_METHOD_RETURN
| G_DBUS_MESSAGE_TYPE_ERROR
| G_DBUS_MESSAGE_TYPE_SIGNAL.

Record GDBusMessage := {
  msg_type : GDBusMessageType;
  msg_destination : option string;
  msg_path : string;
  msg_interface : string;
  msg_member : string;
  msg_error_name : option string;
  msg_body : option GVariant
}.

Definition g_dbus_message_get_message_type (m : GDBusMessage) : GDBusMessageType :=
  msg_type m.

Definition g_dbus_message_get_body (m : GDBusMessage) : option GVariant :=
  msg_body m.

Definition g_dbus_message_set_body (m : GDBusMessage) (body : GVariant) : GDBusMessage :=
  {| msg_type := msg_type m; msg_destination := msg_destination m;
     msg_path := msg_path m; msg_interface := msg_interface m;
     msg_member := msg_member m; msg_error_name := msg_error_name m;
     msg_body := Some body |}.

Definition is_error_type (t : GDBusMessageType) : bool :=
  match t with G_DBUS_MESSAGE_TYPE_ERROR => true | _ => false end.

(** [g_dbus_message_to_gerror]: [false] and nothing stored unless the
    message is an error; then the error is made from the error name and
    the text of a body of type [(s)]. *)
Definition g_dbus_message_to_gerror (message : GDBusMessage) (error : GError_out)
    : bool * GError_out :=
  if is_error_type (msg_type message) then
    match msg_error_name message with
    | Some name =>
        let text :=
          match msg_body message with
          | None => "Error return with empty body"
          | Some body =>
              match g_variant_get (Some body) "(s)" with
              | Some [Out_string s] => s
              | _ => "Error return with body of type " +:+ g_variant_get_type_string body
              end
          end in
        (true, g_set_error error
                 {| gerror_dbus_name := Some name;
                    gerror_message := "GDBus.Error:" +:+ name +:+ ": " +:+ text |})
    | None =>
        (true, g_set_error error
                 {| gerror_dbus_name := None;
                    gerror_message := "Error return without error-name header!" |})
    end
  else (false, error).

(** ** Pointers, handlers and the dispatcher table *)


(** Addresses of opaque objects ([GDBusMethodInvocation *], [void *]);
    [0] is [NULL]. *)
Abbreviation pointer := Z.

(** A handler is a pointer to a C function that takes the invocation and
    the user data and returns nothing; it is known by its address. *)
Abbreviation handler_fn := Z.

(** [GDBusMethodCallDispatcher] (declared in [dbus.h]): four nullable
    matchers, the handler ([None] is the [NULL] of the sentinel) and the
    asynchronous flag. *)
Record GDBusMethodCallDispatcher := {
  d_sender : option string;
  d_path : option string;
  d_interface : option string;
  d_method : option string;
  d_handler : option handler_fn;
  d_asynchronous_call : bool
}.

Record dispatch_method_caller_data := {
  cd_handler : handler_fn;
  cd_invocation : pointer;
  cd_userdata : pointer
}.

(** ** The world *)

Inductive log_entry :=
| LogDebug (msg : string)
| LogError (msg : string).

(** How a pending [GDBusMethodInvocation] was completed. *)
Inductive completion :=
| ReturnValue (reply : option GVariant)
| ReturnDBusError (name : string) (message : string).

(** A thread made by [pthread_create]; its start routine is always
    [dispatch_method_caller], [th_arg] is the routine's argument. *)
Record pthread := {
  th_id : Z;
  th_arg : pointer;
  th_detached : bool
}.

(** A message handed to a connection for sending, whether or not the
    transport then accepts it. *)
Record bus_request := {
  rq_connection : pointer;
  rq_message : GDBusMessage
}.

Record World := {
  w_log : list log_entry;
  (** completed invocations; an invocation that is no key is pending *)
  w_completed : gmap Z completion;
  (** heap cells made by [g_memdup2] *)
  w_heap : gmap Z dispatch_method_caller_data;
  w_next_addr : Z;
  (** threads created and not yet finished *)
  w_threads : list pthread;
  w_next_tid : Z;
  (** what the next calls of [pthread_create] and [pthread_detach] return
      ([0] once the list is used up) *)
  w_pthread_create : list Z;
  w_pthread_detach : list Z;
  (** the messages handed to connections, oldest first *)
  w_bus : list bus_request;
  (** the number of references held on [GDBusMessage] objects *)
  w_messages : Z
}.

Definition set_log (x : list log_entry) (w : World) : World :=
  {| w_log := x; w_completed := w_completed w; w_heap := w_heap w;
     w_next_addr := w_next_addr w; w_threads := w_threads w;
     w_next_tid := w_next_tid w; w_pthread_create := w_pthread_create w;
     w_pthread_detach := w_pthread_detach w; w_bus := w_bus w;
     w_messages := w_messages w |}.

Definition set_completed (x : gmap Z completion) (w : World) : World :=
  {| w_log := w_log w; w_completed := x; w_heap := w_heap w;
     w_next_addr := w_next_addr w; w_threads := w_threads w;
     w_next_tid := w_next_tid w; w_pthread_create := w_pthread_create w;
     w_pthread_detach := w_pthread_detach w; w_bus := w_bus w;
     w_messages := w_messages w |}.

Definition set_heap (x : gmap Z dispatch_method_caller_data) (w : World) : World :=
  {| w_log := w_log w; w_completed := w_completed w; w_heap := x;
     w_next_addr := w_next_addr w; w_threads := w_threads w;
     w_next_tid := w_next_tid w; w_pthread_create := w_pthread_create w;
     w_pthread_detach := w_pthread_detach w; w_bus := w_bus w;
     w_messages := w_messages w |}.

Definition set_next_addr (x : Z) (w : World) : World :=
  {| w_log := w_log w; w_completed := w_completed w; w_heap := w_heap w;
     w_next_addr := x; w_threads := w_threads w; w_next_tid := w_next_tid w;
     w_pthread_create := w_pthread_create w;
     w_pthread_detach := w_pthread_detach w; w_bus := w_bus w;
     w_messages := w_messages w |}.

Definition set_threads (x : list pthread) (w : World) : World :=
  {| w_log := w_log w; w_completed := w_completed w; w_heap := w_heap w;
     w_next_addr := w_next_addr w; w_threads := x;
     w_next_tid := w_next_tid w; w_pthread_create := w_pthread_create w;
     w_pthread_detach := w_pthread_detach w; w_bus := w_bus w;
     w_messages := w_messages w |}.

Definition set_next_tid (x : Z) (w : World) : World :=
  {| w_log := w_log w; w_completed := w_completed w; w_heap := w_heap w;
     w_next_addr := w_next_addr w; w_threads := w_threads w; w_next_tid := x;
     w_pthread_create := w_pthread_create w;
     w_pthread_detach := w_pthread_detach w; w_bus := w_bus w;
     w_messages := w_messages w |}.

Definition set_pthread_create (x : list Z) (w : World) : World :=
  {| w_log := w_log w; w_completed := w_completed w; w_heap := w_heap w;
     w_next_addr := w_next_addr w; w_threads := w_threads w;
     w_next_tid := w_next_tid w; w_pthread_create := x;
     w_pthread_detach := w_pthread_detach w; w_bus := w_bus w;
     w_messages := w_messages w |}.

Definition set_pthread_detach (x : list Z) (w : World) : World :=
  {| w_log := w_log w; w_completed := w_completed w; w_heap := w_heap w;
     w_next_addr := w_next_addr w; w_threads := w_threads w;
     w_next_tid := w_next_tid w; w_pthread_create := w_pthread_create w;
     w_pthread_detach := x; w_bus := w_bus w; w_messages := w_messages w |}.

Definition set_bus (x : list bus_request) (w : World) : World :=
  {| w_log := w_log w; w_completed := w_completed w; w_heap := w_heap w;
     w_next_addr := w_next_addr w; w_threads := w_threads w;
     w_next_tid := w_next_tid w; w_pthread_create := w_pthread_create w;
     w_pthread_detach := w_pthread_detach w; w_bus := x;
     w_messages := w_messages w |}.

Definition set_messages (x : Z) (w : World) : World :=
  {| w_log := w_log w; w_completed := w_completed w; w_heap := w_heap w;
     w_next_addr := w_next_addr w; w_threads := w_threads w;
     w_next_tid := w_next_tid w; w_pthread_create := w_pthread_create w;
     w_pthread_detach := w_pthread_detach w; w_bus := w_bus w;
     w_messages := x |}.

(** The part of the libc, of GIO, of the headers and of the application
    that [dbus.c] is compiled and linked against. *)
Class Environment := {
  (** the code behind a handler address *)
  handler_impl : handler_fn -> pointer -> pointer -> World -> World;
  strerror : Z -> string;
  (** the interface names that [dbus.h] defines as macros *)
  DBUS_IFACE_PROPERTIES : string;
  DBUS_IFACE_OBJECT_MANAGER : string;
  (** the peer and the transport: the reply to a method call or the local
      error of sending it; the local error of sending a message, if any *)
  bus_reply : pointer -> GDBusMessage -> GDBusMessage + GError;
  bus_send : pointer -> GDBusMessage -> option GError
}.

(** [debug()] and [error()] of [shared/log.h]. *)
Definition debug (msg : string) (w : World) : World :=
  set_log (w_log w ++ [LogDebug msg])%list w.

Definition error (msg : string) (w : World) : World :=
  set_log (w_log w ++ [LogError msg])%list w.

(** [g_memdup2(&data, sizeof(data))]: a fresh heap cell holding a copy. *)
Definition g_memdup2 (data : dispatch_method_caller_data) (w : World) : pointer * World :=
  let ptr := w_next_addr w in
  (ptr, set_next_addr (ptr + 1) (set_heap (<[ptr := data]> (w_heap w)) w)).

Definition g_free (ptr : pointer) (w : World) : World :=
  set_heap (delete ptr (w_heap w)) w.

(** [pthread_create(&thread, NULL, PTHREAD_FUNC(dispatch_method_caller), arg)]:
    the return value is the next one of the script; [0] makes a joinable
    thread, anything else makes none. *)
Definition pthread_create (arg : pointer) (w : World) : Z * Z * World :=
  let ret := hd 0 (w_pthread_create w) in
  let tid := w_next_tid w in
  let w := set_pthread_create (tl (w_pthread_create w)) w in
  if ret =? 0 then
    (ret, tid,
     set_next_tid (tid + 1)
       (set_threads
          (w_threads w ++ [{| th_id := tid; th_arg := arg; th_detached := false |}])%list
          w))
  else (ret, tid, w).

Definition mark_detached (tid : Z) (t : pthread) : pthread :=
  if th_id t =? tid
  then {| th_id := th_id t; th_arg := th_arg t; th_detached := true |}
  else t.

(** [pthread_detach(thread)]: on [0] the thread is marked detached. *)
Definition pthread_detach (tid : Z) (w : World) : Z * World :=
  let ret := hd 0 (w_pthread_detach w) in
  let w := set_pthread_detach (tl (w_pthread_detach w)) w in
  if ret =? 0
  then (ret, set_threads (List.map (mark_detached tid) (w_threads w)) w)
  else (ret, w).

(** ** [dispatch_method_caller] (dbus.c:33) *)

(** The body of a worker: call the handler of the job, free the job.
    [None]: the job pointer is dangling. *)
Definition dispatch_method_caller {env : Environment} (data : pointer) (w : World) : option World :=
  match w_heap w !! data with
  | None => None
  | Some d =>
      let w := handler_impl (cd_handler d) (cd_invocation d) (cd_userdata d) w in
      Some (g_free data w)
  end.

(** The scheduler lets the thread [tid] run to its end. *)
Definition thread_run {env : Environment} (tid : Z) (w : World) : option World :=
  match List.find (fun t => th_id t =? tid) (w_threads w) with
  | None => None
  | Some t =>
      dispatch_method_caller (th_arg t)
        (set_threads (List.filter (fun t => negb (th_id t =? tid)) (w_threads w)) w)
  end.

(** ** [g_dbus_dispatch_method_call] (dbus.c:50) *)

(** [matcher != NULL && strcmp(matcher, value) != 0] *)
Definition mismatch (matcher : option string) (value : string) : bool :=
  match matcher with
  | None => false
  | Some m => negb (strcmp m value =? 0)
  end.

Definition msg_called (interface method path : string) : string :=
  "Called: " +:+ interface +:+ "." +:+ method +:+ "() on " +:+ path.

Definition msg_create_failed {env : Environment} (ret : Z) : string :=
  "Couldn't create D-Bus call dispatcher: " +:+ strerror ret.

Definition msg_detach_failed {env : Environment} (ret : Z) : string :=
  "Couldn't detach D-Bus call dispatcher: " +:+ strerror ret.

(** The body of the loop once the four matchers have accepted the call:
    lines 66 to 95. *)
Definition dispatch_matched {env : Environment} (h : handler_fn) (asynchronous_call : bool)
    (path interface method : string) (invocation userdata : pointer)
    (w : World) : bool * World :=
  let w := debug (msg_called interface method path) w in
  if negb asynchronous_call then
    (true, handler_impl h invocation userdata w)
  else
    let data := {| cd_handler := h; cd_invocation := invocation; cd_userdata := userdata |} in
    let '(ptr, w) := g_memdup2 data w in
    let '(ret, thread, w) := pthread_create ptr w in
    if negb (ret =? 0) then (false, error (msg_create_failed ret) w)
    else
      let '(ret, w) := pthread_detach thread w in
      if negb (ret =? 0) then (false, error (msg_detach_failed ret) w)
      else (true, w).

(** The table is the C array behind [dispatchers]; reading past its end
    (a table without sentinel) is undefined and gives [None]. The four
    strings of the call are not [NULL]: [strcmp] reads them. *)
Fixpoint g_dbus_dispatch_method_call {env : Environment}
    (dispatchers : list GDBusMethodCallDispatcher)
    (sender path interface method : string) (invocation userdata : pointer)
    (w : World) : option (bool * World) :=
  match dispatchers with
  | [] => None
  | dispatcher :: rest =>
      match d_handler dispatcher with
      | None => Some (false, w)
      | Some h =>
          if mismatch (d_sender dispatcher) sender then
            g_dbus_dispatch_method_call rest sender path interface method invocation userdata w
          else if mismatch (d_path dispatcher) path then
            g_dbus_dispatch_method_call rest sender path interface method invocation userdata w
          else if mismatch (d_interface dispatcher) interface then
            g_dbus_dispatch_method_call rest sender path interface method invocation userdata w
          else if mismatch (d_method dispatcher) method then
            g_dbus_dispatch_method_call rest sender path interface method invocation userdata w
          else
            Some (dispatch_matched h (d_asynchronous_call dispatcher)
                    path interface method invocation userdata w)
      end
  end.

(** ** The interface skeleton adapter (dbus.c:101) *)

(** [GDBusInterfaceSkeletonVTable] and [GDBusInterfaceSkeletonEx] of
    [dbus.h]; the three property callbacks are known by their addresses. *)
Record GDBusInterfaceSkeletonVTable := {
  vt_dispatchers : list GDBusMethodCallDispatcher;
  vt_get_property : Z;
  vt_set_property : Z;
  vt_get_properties : Z
}.

Record GDBusInterfaceSkeletonEx := {
  if_interface_info : pointer;
  if_vtable : GDBusInterfaceSkeletonVTable;
  if_userdata : pointer
}.

Definition msg_dispatch_failed (interface method : string) : string :=
  "Couldn't dispatch D-Bus method call: " +:+ interface +:+ "." +:+ method +:+ "()".

(** [conn] and [params] are unused in the C function. *)
Definition interface_skeleton_ex_method_call {env : Environment}
    (sender path interface method : string) (invocation : pointer)
    (iface : GDBusInterfaceSkeletonEx) (w : World) : option World :=
  match g_dbus_dispatch_method_call (vt_dispatchers (if_vtable iface))
          sender path interface method invocation (if_userdata iface) w with
  | None => None
  | Some (true, w) => Some w
  | Some (false, w) => Some (error (msg_dispatch_failed interface method) w)
  end.

(** ** GIO primitives on the world *)

(** [g_dbus_message_new_method_call]: a new message, one reference held. *)
Definition g_dbus_message_new_method_call (name path interface method : string)
    (w : World) : GDBusMessage * World :=
  ({| msg_type := G_DBUS_MESSAGE_TYPE_METHOD_CALL; msg_destination := Some name;
      msg_path := path; msg_interface := interface; msg_member := method;
      msg_error_name := None; msg_body := None |},
   set_messages (w_messages w + 1) w).

Definition g_object_unref (w : World) : World :=
  set_messages (w_messages w - 1) w.

(** [g_dbus_connection_send_message_with_reply_sync(conn, msg,
    G_DBUS_SEND_MESSAGE_FLAGS_NONE, -1, NULL, NULL, error)]: the reply, of
    whatever type the peer sent, with one reference held; or [NULL] with
    the local error stored. *)
Definition g_dbus_connection_send_message_with_reply_sync {env : Environment}
    (conn : pointer) (msg : GDBusMessage) (error : GError_out) (w : World)
    : option GDBusMessage * GError_out * World :=
  let w := set_bus (w_bus w ++ [{| rq_connection := conn; rq_message := msg |}])%list w in
  match bus_reply conn msg with
  | inl rep => (Some rep, error, set_messages (w_messages w + 1) w)
  | inr e => (None, g_set_error error e, w)
  end.

(** [g_dbus_connection_emit_signal]: makes the signal message, hands it to
    the connection and drops it again. *)
Definition g_dbus_connection_emit_signal {env : Environment}
    (conn : pointer) (destination_bus_name : option string)
    (object_path interface_name signal_name : string)
    (parameters : option GVariant) (error : GError_out) (w : World)
    : bool * GError_out * World :=
  let message :=
    {| msg_type := G_DBUS_MESSAGE_TYPE_SIGNAL;
       msg_destination := destination_bus_name; msg_path := object_path;
       msg_interface := interface_name; msg_member := signal_name;
       msg_error_name := None; msg_body := parameters |} in
  let w := set_bus (w_bus w ++ [{| rq_connection := conn; rq_message := message |}])%list w in
  match bus_send conn message with
  | None => (true, error, w)
  | Some e => (false, g_set_error error e, w)
  end.

(** ** The blocking helpers (dbus.c:183 to 311) *)

(** [None]: [g_variant_new] aborted the process. *)
Definition g_dbus_connection_emit_properties_changed {env : Environment}
    (conn : pointer) (path interface : string) (props : option GVariantBuilder)
    (error : GError_out) (w : World) : option (bool * GError_out * World) :=
  match g_variant_new "(sa{sv}as)" [Arg_string interface; Arg_builder props; Arg_builder None] with
  | None => None
  | Some parameters =>
      Some (g_dbus_connection_emit_signal conn None
              path DBUS_IFACE_PROPERTIES "PropertiesChanged"
              (Some parameters) error w)
  end.

Definition g_dbus_get_managed_objects {env : Environment}
    (conn : pointer) (name path : string) (error : GError_out) (w : World)
    : option GVariantIter * GError_out * World :=
  let '(msg, w) :=
    g_dbus_message_new_method_call name path
      DBUS_IFACE_OBJECT_MANAGER "GetManagedObjects" w in
  let '(rep, error, w) :=
    g_dbus_connection_send_message_with_reply_sync conn msg error w in
  let '(objects, error) :=
    match rep with
    | None => (None, error)
    | Some r =>
        if is_error_type (g_dbus_message_get_message_type r)
        then (None, snd (g_dbus_message_to_gerror r error))
        else
          match g_variant_get (g_dbus_message_get_body r) "(a{oa{sa{sv}}})" with
          | Some [Out_iter children] => (Some {| iter_remaining := children |}, error)
          | _ => (None, error)
          end
    end in
  let w := g_object_unref w in
  let w := match rep with Some _ => g_object_unref w | None => w end in
  (objects, error, w).

Definition g_dbus_get_property {env : Environment}
    (conn : pointer) (service path interface property : string)
    (error : GError_out) (w : World)
    : option (option GVariant * GError_out * World) :=
  let '(msg, w) :=
    g_dbus_message_new_method_call service path DBUS_IFACE_PROPERTIES "Get" w in
  match g_variant_new "(ss)" [Arg_string interface; Arg_string property] with
  | None => None
  | Some body =>
      let msg := g_dbus_message_set_body msg body in
      let '(rep, error, w) :=
        g_dbus_connection_send_message_with_reply_sync conn msg error w in
      let '(value, error) :=
        match rep with
        | None => (None, error)
        | Some r =>
            if is_error_type (g_dbus_message_get_message_type r)
            then (None, snd (g_dbus_message_to_gerror r error))
            else
              match g_variant_get (g_dbus_message_get_body r) "(v)" with
              | Some [Out_variant v] => (Some v, error)
              | _ => (None, error)
              end
        end in
      let w := g_object_unref w in
      let w := match rep with Some _ => g_object_unref w | None => w end in
      Some (value, error, w)
  end.

(** [error == NULL], a test of the pointer argument itself. *)
Definition is_null (error : GError_out) : bool :=
  match error with None => true | Some _ => false end.

Definition g_dbus_set_property {env : Environment}
    (conn : pointer) (service path interface property : string)
    (value : GVariant) (error : GError_out) (w : World)
    : option (bool * GError_out * World) :=
  let '(msg, w) :=
    g_dbus_message_new_method_call service path DBUS_IFACE_PROPERTIES "Set" w in
  match g_variant_new "(ssv)" [Arg_string interface; Arg_string property; Arg_variant value] with
  | None => None
  | Some body =>
      let msg := g_dbus_message_set_body msg body in
      let '(rep, error, w) :=
        g_dbus_connection_send_message_with_reply_sync conn msg error w in
      let error :=
        match rep with
        | None => error
        | Some r =>
            if is_error_type (g_dbus_message_get_message_type r)
            then snd (g_dbus_message_to_gerror r error)
            else error
        end in
      let w := g_object_unref w in
      let w := match rep with Some _ => g_object_unref w | None => w end in
      Some (is_null error, error, w)
  end.

(** ** The routing rule in the words of the specification *)

(** A matcher accepts a value when it is the wildcard or byte-equal to it. *)
Definition wildcard_or_equal (matcher : option string) (value : string) : bool :=
  match matcher with
  | None => true
  | Some m => String.eqb (c_str m) (c_str value)
  end.

Definition entry_matches (sender path interface method : string)
    (d : GDBusMethodCallDispatcher) : bool :=
  wildcard_or_equal (d_sender d) sender && wildcard_or_equal (d_path d) path
  && wildcard_or_equal (d_interface d) interface
  && wildcard_or_equal (d_method d) method.

Definition is_sentinel (d : GDBusMethodCallDispatcher) : bool :=
  match d_handler d with None => true | Some _ => false end.

(** The entries of a table: what stands before its sentinel. *)
Fixpoint table_entries (ds : list GDBusMethodCallDispatcher)
    : list GDBusMethodCallDispatcher :=
  match ds with
  | [] => []
  | d :: rest => if is_sentinel d then [] else d :: table_entries rest
  end.

Definition sentinel_terminated (ds : list GDBusMethodCallDispatcher) : Prop :=
  existsb is_sentinel ds = true.

(** The first entry, in table order, that matches the call. *)
Definition first_match (ds : list GDBusMethodCallDispatcher)
    (sender path interface method : string) : option GDBusMethodCallDispatcher :=
  List.find (entry_matches sender path interface method) (table_entries ds).

(** The handler [h] has been handed, with the invocation and the user
    data, to a new worker between [w] and [w']: the job is on the heap, the
    worker is among the threads with the job as its argument, no invocation
    has been completed meanwhile, and the worker's body run on [w'] calls
    [h] on exactly these arguments and frees the job. *)
Definition worker_started {env : Environment} (detached : bool) (h : handler_fn)
    (invocation userdata : pointer) (w w' : World) : Prop :=
  let ptr := w_next_addr w in
  w_heap w' !! ptr
    = Some {| cd_handler := h; cd_invocation := invocation; cd_userdata := userdata |}
  /\ In {| th_id := w_next_tid w; th_arg := ptr; th_detached := detached |} (w_threads w')
  /\ w_completed w' = w_completed w
  /\ dispatch_method_caller ptr w'
     = Some (g_free ptr (handler_impl h invocation userdata w')).

(** The reply body of [GetManagedObjects] for an object without children:
    the empty array of type [a{oa{sa{sv}}}] in a tuple. *)
Definition no_managed_objects : GVariant :=
  GV_tuple
    [GV_array
       (TDictEntry (TBasic Go)
          (TArray (TDictEntry (TBasic Gs)
             (TArray (TDictEntry (TBasic Gs) TVariant)))))
       []].

(** The changed-property bag is [NULL] or a builder of type [a{sv}]. *)
Definition property_bag (props : option GVariantBuilder) : Prop :=
  match props with
  | None => True
  | Some b => gb_type b = TArray (TDictEntry (TBasic Gs) TVariant)
  end.

Definition bag_children (props : option GVariantBuilder) : list GVariant :=
  match props with
  | None => []
  | Some b => gb_children b
  end.

(** ** A concrete environment, tables and worlds *)

Definition the_world : World :=
  {| w_log := []; w_completed := ∅; w_heap := ∅; w_next_addr := 4096;
     w_threads := []; w_next_tid := 1; w_pthread_create := [];
     w_pthread_detach := []; w_bus := []; w_messages := 0 |}.

(** [EAGAIN] *)
Definition EAGAIN : Z := 11.

(** [EINVAL] *)
Definition EINVAL : Z := 22.

(** The next [pthread_create] fails for lack of resources. *)
Definition world_no_threads : World := set_pthread_create [EAGAIN] the_world.

(** The next [pthread_detach] fails. *)
Definition world_no_detach : World := set_pthread_detach [EINVAL] the_world.

(** A handler of the test application answers its invocation with its own
    address, so that one sees which handler ran. *)
Definition answering_handler (h : handler_fn) (invocation userdata : pointer)
    (w : World) : World :=
  set_completed
    (<[invocation := ReturnValue (Some (GV_tuple [GV_number Gx h]))]> (w_completed w)) w.

Definition method_return (body : GVariant) : GDBusMessage :=
  {| msg_type := G_DBUS_MESSAGE_TYPE_METHOD_RETURN; msg_destination := None;
     msg_path := ""; msg_interface := ""; msg_member := "";
     msg_error_name := None; msg_body := Some body |}.

Definition error_reply (name text : string) : GDBusMessage :=
  {| msg_type := G_DBUS_MESSAGE_TYPE_ERROR; msg_destination := None;
     msg_path := ""; msg_interface := ""; msg_member := "";
     msg_error_name := Some name; msg_body := Some (GV_tuple [GV_string text]) |}.

(** The test peer: the service [org.bluez] answers every call, with no
    managed objects, the volume 50 and an empty reply to [Set]; the service
    [org.broken] answers with an error message; no other service is
    reachable. *)
Definition test_peer (conn : pointer) (msg : GDBusMessage) : GDBusMessage + GError :=
  if bool_decide (msg_destination msg = Some "org.bluez") then
    if bool_decide (msg_member msg = "GetManagedObjects") then
      inl (method_return no_managed_objects)
    else if bool_decide (msg_member msg = "Get") then
      inl (method_return (GV_tuple [GV_variant (GV_number Gi 50)]))
    else inl (method_return (GV_tuple []))
  else if bool_decide (msg_destination msg = Some "org.broken") then
    inl (error_reply "org.freedesktop.DBus.Error.UnknownObject" "No such object")
  else
    inr {| gerror_dbus_name := None; gerror_message := "The connection is closed" |}.

Definition test_environment : Environment := {|
  handler_impl := answering_handler;
  strerror := fun ret => if ret =? EAGAIN then "Resource temporarily unavailable"
                         else "Invalid argument";
  DBUS_IFACE_PROPERTIES := "org.freedesktop.DBus.Properties";
  DBUS_IFACE_OBJECT_MANAGER := "org.freedesktop.DBus.ObjectManager";
  bus_reply := test_peer;
  bus_send := fun _ _ => None
|}.

Definition sentinel : GDBusMethodCallDispatcher :=
  {| d_sender := None; d_path := None; d_interface := None; d_method := None;
     d_handler := None; d_asynchronous_call := false |}.

(** The table of the specification's scenario: [Get] on [/org/x] goes to
    the handler 1 inline, everything else to the handler 2 on a worker. *)
Definition scenario_table : list GDBusMethodCallDispatcher :=
  [ {| d_sender := None; d_path := Some "/org/x"; d_interface := None;
       d_method := Some "Get"; d_handler := Some 1; d_asynchronous_call := false |};
    {| d_sender := None; d_path := None; d_interface := None; d_method := None;
       d_handler := Some 2; d_asynchronous_call := true |};
    sentinel ].

(** A table that only routes [Get] on [/org/x]. *)
Definition get_only_table : list GDBusMethodCallDispatcher :=
  [ {| d_sender := None; d_path := Some "/org/x"; d_interface := None;
       d_method := Some "Get"; d_handler := Some 1; d_asynchronous_call := false |};
    sentinel ].

Definition get_only_skeleton : GDBusInterfaceSkeletonEx :=
  {| if_interface_info := 0;
     if_vtable := {| vt_dispatchers := get_only_table; vt_get_property := 0;
                     vt_set_property := 0; vt_get_properties := 0 |};
     if_userdata := 0 |}.

Definition volume_bag : GVariantBuilder :=
  {| gb_type := TArray (TDictEntry (TBasic Gs) TVariant);
     gb_children := [GV_dict_entry (GV_string "Volume") (GV_variant (GV_number Gi 50))] |}.

(** ** The property entries and the skeleton objects (dbus.c:110 to 172) *)

(** The application's code behind the three property callbacks of a
    [GDBusInterfaceSkeletonVTable] and behind a [GDestroyNotify], each
    known by its address. *)
Class Callbacks := {
  get_property_impl :
    Z -> string -> GError_out -> pointer -> World -> option GVariant * GError_out * World;
  set_property_impl :
    Z -> string -> GVariant -> GError_out -> pointer -> World -> bool * GError_out * World;
  get_properties_impl : Z -> pointer -> World -> option GVariant * World;
  destroy_notify_impl : Z -> pointer -> World -> World
}.

(** [conn], [sender], [path] and [interface] are unused in the C function.
    [None]: the callback pointer of the vtable is [NULL]. *)
Definition interface_skeleton_ex_get_property {cb : Callbacks}
    (property : string) (error : GError_out) (iface : GDBusInterfaceSkeletonEx)
    (w : World) : option (option GVariant * GError_out * World) :=
  let f := vt_get_property (if_vtable iface) in
  if f =? 0 then None
  else Some (get_property_impl f property error (if_userdata iface) w).

Definition interface_skeleton_ex_set_property {cb : Callbacks}
    (property : string) (value : GVariant) (error : GError_out)
    (iface : GDBusInterfaceSkeletonEx) (w : World)
    : option (bool * GError_out * World) :=
  let f := vt_set_property (if_vtable iface) in
  if f =? 0 then None
  else Some (set_property_impl f property value error (if_userdata iface) w).

Definition g_dbus_interface_skeleton_ex_class_get_info
    (iface : GDBusInterfaceSkeletonEx) : pointer :=
  if_interface_info iface.

Definition g_dbus_interface_skeleton_ex_class_get_properties {cb : Callbacks}
    (iface : GDBusInterfaceSkeletonEx) (w : World) : option (option GVariant * World) :=
  let f := vt_get_properties (if_vtable iface) in
  if f =? 0 then None
  else Some (get_properties_impl f (if_userdata iface) w).

(** A [GObject] instance of a skeleton type: its type, its reference
    count, the associations made by [g_object_set_data_full] (key, data,
    destroy notifier; [0] is no notifier) and the fields that
    [GDBusInterfaceSkeletonEx] adds. *)
Record GObjectInstance := {
  go_type : Z;
  go_ref_count : Z;
  go_data : list (string * (pointer * Z));
  go_skeleton : GDBusInterfaceSkeletonEx
}.

(** The live instances, the next free address and whether the next calls
    of [g_object_new] fail ([false] once the list is used up). *)
Record Objects := {
  ob_instances : gmap Z GObjectInstance;
  ob_next : Z;
  ob_new_fails : list bool
}.

(** The fields of a new instance are zeroed. *)
Definition zeroed_skeleton : GDBusInterfaceSkeletonEx :=
  {| if_interface_info := 0;
     if_vtable := {| vt_dispatchers := []; vt_get_property := 0;
                     vt_set_property := 0; vt_get_properties := 0 |};
     if_userdata := 0 |}.

(** [g_object_new(type, NULL)]: [None] is [NULL]. *)
Definition g_object_new (type : Z) (o : Objects) : option pointer * Objects :=
  if hd false (ob_new_fails o) then
    (None, {| ob_instances := ob_instances o; ob_next := ob_next o;
              ob_new_fails := tl (ob_new_fails o) |})
  else
    let p := ob_next o in
    (Some p,
     {| ob_instances :=
          <[p := {| go_type := type; go_ref_count := 1; go_data := [];
                    go_skeleton := zeroed_skeleton |}]> (ob_instances o);
        ob_next := p + 1; ob_new_fails := tl (ob_new_fails o) |}).

Definition set_instance (p : pointer) (i : GObjectInstance) (o : Objects) : Objects :=
  {| ob_instances := <[p := i]> (ob_instances o); ob_next := ob_next o;
     ob_new_fails := ob_new_fails o |}.

(** The notifier of an association is called on its data, unless there is
    no notifier. *)
Definition run_destroy {cb : Callbacks} (entry : string * (pointer * Z)) (w : World) : World :=
  let '(_, (data, destroy)) := entry in
  if destroy =? 0 then w else destroy_notify_impl destroy data w.

Definition other_key (key : string) (entry : string * (pointer * Z)) : bool :=
  negb (String.eqb (fst entry) key).

(** [g_object_set_data_full(object, key, data, destroy)]: an association
    of the same key is destroyed first; [NULL] data makes no association.
    [None]: the object pointer is dangling. *)
Definition g_object_set_data_full {cb : Callbacks} (object : pointer) (key : string)
    (data : pointer) (destroy : Z) (o : Objects) (w : World) : option (Objects * World) :=
  match ob_instances o !! object with
  | None => None
  | Some i =>
      let old := List.filter (fun e => String.eqb (fst e) key) (go_data i) in
      let kept := List.filter (other_key key) (go_data i) in
      let w := fold_left (fun w e => run_destroy e w) old w in
      let data' := if data =? 0 then kept else (kept ++ [(key, (data, destroy))])%list in
      Some (set_instance object
              {| go_type := go_type i; go_ref_count := go_ref_count i;
                 go_data := data'; go_skeleton := go_skeleton i |} o, w)
  end.

(** The assignments to the fields of [iface] in
    [g_dbus_interface_skeleton_ex_new]. *)
Definition set_skeleton (object : pointer) (sk : GDBusInterfaceSkeletonEx)
    (o : Objects) : option Objects :=
  match ob_instances o !! object with
  | None => None
  | Some i =>
      Some (set_instance object
              {| go_type := go_type i; go_ref_count := go_ref_count i;
                 go_data := go_data i; go_skeleton := sk |} o)
  end.

(** [g_dbus_interface_skeleton_ex_new] (dbus.c:161). The outer [None]
    cannot arise: the object was just made. *)
Definition g_dbus_interface_skeleton_ex_new {cb : Callbacks}
    (interface_skeleton_type : Z) (interface_info : pointer)
    (vtable : GDBusInterfaceSkeletonVTable) (userdata : pointer)
    (userdata_free_func : Z) (o : Objects) (w : World)
    : option (option pointer * Objects * World) :=
  match g_object_new interface_skeleton_type o with
  | (None, o) => Some (None, o, w)
  | (Some iface, o) =>
      match g_object_set_data_full iface "_ud" userdata userdata_free_func o w with
      | None => None
      | Some (o, w) =>
          match set_skeleton iface
                  {| if_interface_info := interface_info; if_vtable := vtable;
                     if_userdata := userdata |} o with
          | None => None
          | Some o => Some (Some iface, o, w)
          end
      end
  end.

(** The cast [GDBusInterfaceSkeletonEx *iface = userdata] at the head of
    the entries: the fields behind the object pointer. *)
Definition skeleton_at (o : Objects) (object : pointer) : option GDBusInterfaceSkeletonEx :=
  go_skeleton <$> ob_instances o !! object.

(** Dropping a reference of an instance; the last one destroys the
    associations in order and frees the instance. [None]: the pointer is
    dangling. *)
Definition g_object_unref_instance {cb : Callbacks} (object : pointer)
    (o : Objects) (w : World) : option (Objects * World) :=
  match ob_instances o !! object with
  | None => None
  | Some i =>
      if 1 <? go_ref_count i then
        Some (set_instance object
                {| go_type := go_type i; go_ref_count := go_ref_count i - 1;
                   go_data := go_data i; go_skeleton := go_skeleton i |} o, w)
      else
        Some ({| ob_instances := delete object (ob_instances o); ob_next := ob_next o;
                 ob_new_fails := ob_new_fails o |},
              fold_left (fun w e => run_destroy e w) (go_data i) w)
  end.

(** ** Further notions for the properties *)

(** Between [w] and [w'] one message was handed to a connection and
    nothing else has changed: every reference taken on a message has been
    dropped again. *)
Definition sent_one (request : bus_request) (w w' : World) : Prop :=
  w_bus w' = (w_bus w ++ [request])%list
  /\ w_messages w' = w_messages w
  /\ w_log w' = w_log w
  /\ w_completed w' = w_completed w
  /\ w_heap w' = w_heap w
  /\ w_next_addr w' = w_next_addr w
  /\ w_threads w' = w_threads w
  /\ w_next_tid w' = w_next_tid w
  /\ w_pthread_create w' = w_pthread_create w
  /\ w_pthread_detach w' = w_pthread_detach w.

Definition method_call_message (service path interface method : string)
    (body : option GVariant) : GDBusMessage :=
  {| msg_type := G_DBUS_MESSAGE_TYPE_METHOD_CALL; msg_destination := Some service;
     msg_path := path; msg_interface := interface; msg_member := method;
     msg_error_name := None; msg_body := body |}.

(** The loop [while ((v = g_variant_iter_next_value(it)))] of a caller, at
    most [fuel] turns: the values it sees. *)
Fixpoint g_variant_iter_loop (fuel : nat) (it : GVariantIter) : list GVariant :=
  match fuel with
  | O => []
  | S fuel =>
      match g_variant_iter_next_value it with
      | None => []
      | Some (v, it) => v :: g_variant_iter_loop fuel it
      end
  end.

(** The element type [{oa{sa{sv}}}] of the reply of [GetManagedObjects]. *)
Definition managed_object_type : GVariantType :=
  TDictEntry (TBasic Go)
    (TArray (TDictEntry (TBasic Gs) (TArray (TDictEntry (TBasic Gs) TVariant)))).

Definition all_wildcards (d : GDBusMethodCallDispatcher) : Prop :=
  d_sender d = None /\ d_path d = None /\ d_interface d = None /\ d_method d = None.

(** What a failed request leaves behind the error pointer: the local
    error of the transport, or the peer's error message converted;
    [None] when the request did not fail. *)
Definition request_failure (outcome : GDBusMessage + GError) (error : GError_out)
    : option GError_out :=
  match outcome with
  | inr e => Some (g_set_error error e)
  | inl rep =>
      if is_error_type (msg_type rep)
      then Some (snd (g_dbus_message_to_gerror rep error))
      else None
  end.

(** ** A concrete application behind the skeletons *)

(** The test application knows the property [Volume]; its destructor
    leaves a line in the log. *)
Definition test_callbacks : Callbacks := {|
  get_property_impl := fun _ property error _ w =>
    if String.eqb property "Volume" then (Some (GV_number Gi 50), error, w)
    else (None,
          g_set_error error {| gerror_dbus_name := None;
                               gerror_message := "Property not supported" |}, w);
  set_property_impl := fun _ _ _ error _ w => (true, error, w);
  get_properties_impl := fun _ _ w =>
    (Some (GV_array (TDictEntry (TBasic Gs) TVariant)
             [GV_dict_entry (GV_string "Volume") (GV_variant (GV_number Gi 50))]), w);
  destroy_notify_impl := fun _ _ w => debug "userdata freed" w
|}.

Definition no_objects : Objects :=
  {| ob_instances := ∅; ob_next := 8192; ob_new_fails := [] |}.

Definition no_memory : Objects :=
  {| ob_instances := ∅; ob_next := 8192; ob_new_fails := [true] |}.

Definition scenario_vtable : GDBusInterfaceSkeletonVTable :=
  {| vt_dispatchers := scenario_table; vt_get_property := 21;
     vt_set_property := 22; vt_get_properties := 23 |}.

(** A table whose only entry wants the path [/org]. *)
Definition org_only_table : list GDBusMethodCallDispatcher :=
  [ {| d_sender := None; d_path := Some "/org"; d_interface := None;
       d_method := None; d_handler := Some 1; d_asynchronous_call := false |};
    sentinel ].

(** A peer that answers [GetManagedObjects] with two objects. *)
Definition two_objects : list GVariant :=
  [ GV_dict_entry (GV_object_path "/org/bluez/hci0")
      (GV_array (TDictEntry (TBasic Gs) (TArray (TDictEntry (TBasic Gs) TVariant))) []);
    GV_dict_entry (GV_object_path "/org/bluez/hci1")
      (GV_array (TDictEntry (TBasic Gs) (TArray (TDictEntry (TBasic Gs) TVariant))) []) ].

Definition two_objects_environment : Environment := {|
  handler_impl := answering_handler;
  strerror := fun _ => "Invalid argument";
  DBUS_IFACE_PROPERTIES := "org.freedesktop.DBus.Properties";
  DBUS_IFACE_OBJECT_MANAGER := "org.freedesktop.DBus.ObjectManager";
  bus_reply := fun _ _ =>
    inl (method_return (GV_tuple [GV_array managed_object_type two_objects]));
  bus_send := fun _ _ =>
    Some {| gerror_dbus_name := None; gerror_message := "The connection is closed" |}
|}.

(** * Part II: properties *)

(** ** [strcmp] decides byte equality *)

Lemma uchar_inj c1 c2 : uchar c1 = uchar c2 -> c1 = c2.
Proof.
  unfold uchar. intros H%N2Z.inj.
  rewrite <- (ascii_N_embedding c1), <- (ascii_N_embedding c2).
  now rewrite H.
Qed.

Lemma uchar_nonneg c : 0 <= uchar c.
Proof. unfold uchar. lia. Qed.

Lemma strcmp_eq_0 s1 s2 : strcmp s1 s2 = 0 <-> c_str s1 = c_str s2.
Proof.
  revert s2. induction s1 as [|c1 r1 IH]; intros [|c2 r2]; simpl.
  - tauto.
  - pose proof (uchar_nonneg c2).
    destruct (Z.eqb_spec (uchar c2) 0); split; intros; try done; lia.
  - pose proof (uchar_nonneg c1).
    destruct (Z.eqb_spec (uchar c1) 0); split; intros; try done; lia.
  - destruct (Z.eqb_spec (uchar c1) (uchar c2)) as [E|E].
    + rewrite <- E. apply uchar_inj in E. subst c2.
      destruct (Z.eqb_spec (uchar c1) 0); [tauto|].
      rewrite IH. split; [now intros ->|now intros [=]].
    + split; [lia|].
      destruct (Z.eqb_spec (uchar c1) 0), (Z.eqb_spec (uchar c2) 0);
        intros [=]; try lia. subst. done.
Qed.

Lemma strcmp_nul_free s1 s2 :
  nul_free s1 -> nul_free s2 -> (strcmp s1 s2 = 0 <-> s1 = s2).
Proof.
  unfold nul_free. intros H1 H2. rewrite strcmp_eq_0. now rewrite H1, H2.
Qed.

Lemma mismatch_wildcard_or_equal matcher value :
  mismatch matcher value = negb (wildcard_or_equal matcher value).
Proof.
  destruct matcher as [m|]; simpl; [|done]. f_equal.
  destruct (Z.eqb_spec (strcmp m value) 0) as [E|E];
    destruct (String.eqb_spec (c_str m) (c_str value)) as [E'|E']; try done.
  - now apply strcmp_eq_0 in E.
  - now apply strcmp_eq_0 in E'.
Qed.

(** ** The scan of the table *)

Section Dispatcher.
Context {env : Environment}.
Implicit Types (ds : list GDBusMethodCallDispatcher) (d : GDBusMethodCallDispatcher).
Implicit Types (sender path interface method : string) (w : World).

(** One turn of the loop on an entry that is not the sentinel. *)
Lemma dispatch_step d rest h sender path interface method invocation userdata w :
  d_handler d = Some h ->
  g_dbus_dispatch_method_call (d :: rest) sender path interface method invocation userdata w
  = if entry_matches sender path interface method d
    then Some (dispatch_matched h (d_asynchronous_call d)
                 path interface method invocation userdata w)
    else g_dbus_dispatch_method_call rest sender path interface method invocation userdata w.
Proof.
  intros Hh. simpl. rewrite Hh. unfold entry_matches.
  rewrite !mismatch_wildcard_or_equal.
  destruct (wildcard_or_equal (d_sender d) sender); simpl; [|done].
  destruct (wildcard_or_equal (d_path d) path); simpl; [|done].
  destruct (wildcard_or_equal (d_interface d) interface); simpl; [|done].
  now destruct (wildcard_or_equal (d_method d) method).
Qed.

Lemma is_sentinel_false d h : d_handler d = Some h -> is_sentinel d = false.
Proof. unfold is_sentinel. now intros ->. Qed.

Lemma is_sentinel_true d : d_handler d = None -> is_sentinel d = true.
Proof. unfold is_sentinel. now intros ->. Qed.

Lemma first_match_handler ds sender path interface method d :
  first_match ds sender path interface method = Some d ->
  exists h, d_handler d = Some h.
Proof.
  unfold first_match. induction ds as [|e rest IH]; simpl; [done|].
  destruct (d_handler e) as [h|] eqn:He.
  - rewrite (is_sentinel_false _ _ He). simpl.
    destruct (entry_matches sender path interface method e); [|exact IH].
    intros [= <-]. eauto.
  - now rewrite (is_sentinel_true _ He).
Qed.

(** The loop is a search for the first match among the entries before the
    sentinel; without a match it stops at the sentinel, and runs off the
    array when there is none. *)
Lemma dispatch_scan ds sender path interface method invocation userdata w :
  g_dbus_dispatch_method_call ds sender path interface method invocation userdata w
  = match first_match ds sender path interface method with
    | Some d =>
        match d_handler d with
        | Some h => Some (dispatch_matched h (d_asynchronous_call d)
                            path interface method invocation userdata w)
        | None => None
        end
    | None => if existsb is_sentinel ds then Some (false, w) else None
    end.
Proof.
  unfold first_match. induction ds as [|e rest IH]; [done|].
  destruct (d_handler e) as [h|] eqn:He.
  - rewrite (dispatch_step _ _ h) by done.
    cbn [table_entries existsb]. rewrite (is_sentinel_false _ _ He).
    cbn [find orb].
    destruct (entry_matches sender path interface method e); [|exact IH].
    now rewrite He.
  - cbn [table_entries existsb g_dbus_dispatch_method_call].
    now rewrite (is_sentinel_true _ He), He.
Qed.

(** The first match is the earliest matching entry: whatever stands before
    it is a real entry that rejects the call, and what follows it, matching
    or not, is of no account. *)
Lemma first_match_earliest pre d post sender path interface method :
  Forall (fun e => is_sentinel e = false
                   /\ entry_matches sender path interface method e = false) pre ->
  is_sentinel d = false ->
  entry_matches sender path interface method d = true ->
  first_match (pre ++ d :: post) sender path interface method = Some d.
Proof.
  unfold first_match. intros Hpre Hd Hm.
  induction Hpre as [|e pre [He1 He2] _ IH]; simpl.
  - now rewrite Hd; simpl; rewrite Hm.
  - now rewrite He1; simpl; rewrite He2.
Qed.

(** ** What happens to the matched entry *)

Lemma dispatch_matched_inline h path interface method invocation userdata w :
  dispatch_matched h false path interface method invocation userdata w
  = (true, handler_impl h invocation userdata (debug (msg_called interface method path) w)).
Proof. reflexivity. Qed.

Lemma worker_body detached h invocation userdata w w' :
  w_next_addr w' = w_next_addr w + 1 ->
  w_heap w' !! w_next_addr w
    = Some {| cd_handler := h; cd_invocation := invocation; cd_userdata := userdata |} ->
  In {| th_id := w_next_tid w; th_arg := w_next_addr w; th_detached := detached |}
     (w_threads w') ->
  w_completed w' = w_completed w ->
  worker_started detached h invocation userdata w w'.
Proof.
  intros _ Hheap Hth Hc. unfold worker_started. cbv zeta.
  split; [exact Hheap|]. split; [exact Hth|]. split; [exact Hc|].
  unfold dispatch_method_caller. now rewrite Hheap.
Qed.

Lemma dispatch_matched_detached h path interface method invocation userdata w :
  hd 0 (w_pthread_create w) = 0 ->
  hd 0 (w_pthread_detach w) = 0 ->
  exists w',
    dispatch_matched h true path interface method invocation userdata w = (true, w')
    /\ worker_started true h invocation userdata w w'.
Proof.
  intros Hc Hd. unfold dispatch_matched, g_memdup2, pthread_create, pthread_detach.
  simpl. rewrite Hc. simpl. rewrite Hd. simpl. eexists. split; [reflexivity|].
  apply worker_body; simpl; try done.
  - apply lookup_insert_eq.
  - rewrite map_app, in_app_iff. right. simpl. left.
    unfold mark_detached. simpl. now rewrite Z.eqb_refl.
Qed.

Lemma dispatch_matched_detach_failed h path interface method invocation userdata w :
  hd 0 (w_pthread_create w) = 0 ->
  hd 0 (w_pthread_detach w) <> 0 ->
  exists w',
    dispatch_matched h true path interface method invocation userdata w = (false, w')
    /\ worker_started false h invocation userdata w w'
    /\ w_log w' = (w_log w ++ [LogDebug (msg_called interface method path);
                               LogError (msg_detach_failed (hd 0 (w_pthread_detach w)))])%list.
Proof.
  intros Hc Hd. unfold dispatch_matched, g_memdup2, pthread_create, pthread_detach.
  apply Z.eqb_neq in Hd.
  simpl. rewrite Hc. simpl. rewrite Hd. simpl. rewrite Hd. simpl.
  eexists. split; [reflexivity|]. split.
  - apply worker_body; simpl; try done.
    + apply lookup_insert_eq.
    + rewrite in_app_iff. right. now left.
  - simpl. now rewrite <- app_assoc.
Qed.

Lemma dispatch_matched_create_failed h path interface method invocation userdata w :
  hd 0 (w_pthread_create w) <> 0 ->
  exists w',
    dispatch_matched h true path interface method invocation userdata w = (false, w')
    /\ w_completed w' = w_completed w
    /\ w_threads w' = w_threads w
    /\ w_pthread_create w' = tl (w_pthread_create w)
    /\ w_pthread_detach w' = w_pthread_detach w
    /\ w_log w' = (w_log w ++ [LogDebug (msg_called interface method path);
                               LogError (msg_create_failed (hd 0 (w_pthread_create w)))])%list.
Proof.
  intros Hc. unfold dispatch_matched, g_memdup2, pthread_create.
  apply Z.eqb_neq in Hc.
  simpl. rewrite Hc. simpl. rewrite Hc. simpl.
  eexists. split; [reflexivity|]. simpl. repeat split.
  now rewrite <- app_assoc.
Qed.

End Dispatcher.

(** ** The dispatcher: claims *)

(** C1 (as amended). The call goes to the first entry, in table order,
    whose four matchers are each the wildcard or byte-equal to the field of
    the call. When that entry is not asynchronous, or the worker is both
    created and detached, exactly its handler is dispatched (inline on the
    world after the debug line, or as the job of a new detached worker) and
    the result is true. No other entry counts: every table with the same
    first match gives the same result. *)
Theorem dispatch_first_match_wins {env : Environment}
    (ds : list GDBusMethodCallDispatcher) (sender path interface method : string)
    (invocation userdata : pointer) (w : World) (d : GDBusMethodCallDispatcher)
    (h : handler_fn) :
  first_match ds sender path interface method = Some d ->
  d_handler d = Some h ->
  d_asynchronous_call d = false
    \/ (hd 0 (w_pthread_create w) = 0 /\ hd 0 (w_pthread_detach w) = 0) ->
  (exists w',
     g_dbus_dispatch_method_call ds sender path interface method invocation userdata w
       = Some (true, w')
     /\ if d_asynchronous_call d
        then worker_started true h invocation userdata w w'
        else w' = handler_impl h invocation userdata
                    (debug (msg_called interface method path) w))
  /\ (forall ds',
        first_match ds' sender path interface method = Some d ->
        g_dbus_dispatch_method_call ds' sender path interface method invocation userdata w
        = g_dbus_dispatch_method_call ds sender path interface method invocation userdata w).
Proof.
  intros Hm Hh Hok. split.
  - rewrite dispatch_scan, Hm, Hh.
    destruct (d_asynchronous_call d) eqn:Ha.
    + destruct Hok as [|[Hc Hd]]; [done|].
      destruct (dispatch_matched_detached h path interface method invocation userdata w Hc Hd)
        as (w' & -> & Hw).
      now exists w'.
    + rewrite dispatch_matched_inline. eauto.
  - intros ds' Hm'. now rewrite !dispatch_scan, Hm, Hm'.
Qed.

Lemma dispatch_first_match_wins_witness :
  first_match scenario_table "s" "/org/x" "i" "Get"
    = Some {| d_sender := None; d_path := Some "/org/x"; d_interface := None;
              d_method := Some "Get"; d_handler := Some 1;
              d_asynchronous_call := false |}
  /\ exists w',
       g_dbus_dispatch_method_call (env := test_environment)
         scenario_table "s" "/org/x" "i" "Get" 7 0 the_world = Some (true, w')
       /\ w' = answering_handler 1 7 0 (debug "Called: i.Get() on /org/x" the_world).
Proof.
  split; [reflexivity|].
  refine (proj1 (dispatch_first_match_wins (env := test_environment)
                   scenario_table "s" "/org/x" "i" "Get" 7 0 the_world _ 1
                   eq_refl eq_refl (or_introl eq_refl))).
Defined.

(** C1 as stated fails: the catch-all entry of the scenario table matches
    the call, it is asynchronous, [pthread_create] fails, and the result
    is not true. *)
Lemma dispatch_first_match_not_true :
  sentinel_terminated scenario_table
  /\ is_Some (first_match scenario_table "s" "/org/y" "org.x.Iface" "Set")
  /\ ~ exists w',
         g_dbus_dispatch_method_call (env := test_environment)
           scenario_table "s" "/org/y" "org.x.Iface" "Set" 7 0 world_no_threads
         = Some (true, w').
Proof.
  split; [reflexivity|]. split; [eexists; reflexivity|].
  intros [w' H]. vm_compute in H. discriminate H.
Qed.

(** C2. On a table with its sentinel, a call that no entry matches gives
    false and leaves the world as it is: no handler has run, no invocation
    has been touched, nothing has been logged. *)
Theorem dispatch_no_match {env : Environment}
    (ds : list GDBusMethodCallDispatcher) (sender path interface method : string)
    (invocation userdata : pointer) (w : World) :
  sentinel_terminated ds ->
  first_match ds sender path interface method = None ->
  g_dbus_dispatch_method_call ds sender path interface method invocation userdata w
  = Some (false, w).
Proof.
  unfold sentinel_terminated. intros Ht Hm. now rewrite dispatch_scan, Hm, Ht.
Qed.

Lemma dispatch_no_match_witness :
  sentinel_terminated get_only_table
  /\ first_match get_only_table "s" "/org/y" "org.x.Iface" "Set" = None
  /\ g_dbus_dispatch_method_call (env := test_environment)
       get_only_table "s" "/org/y" "org.x.Iface" "Set" 7 0 the_world
     = Some (false, the_world).
Proof.
  split; [reflexivity|]. split; [reflexivity|].
  exact (dispatch_no_match (env := test_environment)
           get_only_table "s" "/org/y" "org.x.Iface" "Set" 7 0 the_world
           eq_refl eq_refl).
Defined.

(** C3 (as amended). When no entry of the stored table matches, the
    adapter writes one error line naming the interface and the method and
    does nothing else: every invocation, the one of this call among them,
    is as completed or as pending as before. *)
Theorem method_call_no_match_only_logs {env : Environment}
    (sender path interface method : string) (invocation : pointer)
    (iface : GDBusInterfaceSkeletonEx) (w : World) :
  sentinel_terminated (vt_dispatchers (if_vtable iface)) ->
  first_match (vt_dispatchers (if_vtable iface)) sender path interface method = None ->
  exists w',
    interface_skeleton_ex_method_call sender path interface method invocation iface w
      = Some w'
    /\ w' = error (msg_dispatch_failed interface method) w
    /\ w_completed w' = w_completed w.
Proof.
  intros Ht Hm. unfold interface_skeleton_ex_method_call.
  rewrite (dispatch_no_match _ _ _ _ _ _ _ _ Ht Hm). eauto.
Qed.

Lemma method_call_no_match_only_logs_witness :
  sentinel_terminated (vt_dispatchers (if_vtable get_only_skeleton))
  /\ first_match (vt_dispatchers (if_vtable get_only_skeleton))
       "s" "/org/y" "org.x.Iface" "Set" = None
  /\ exists w',
       interface_skeleton_ex_method_call (env := test_environment)
         "s" "/org/y" "org.x.Iface" "Set" 7 get_only_skeleton the_world = Some w'
       /\ w' = error (msg_dispatch_failed "org.x.Iface" "Set") the_world
       /\ w_completed w' = w_completed the_world.
Proof.
  split; [reflexivity|]. split; [reflexivity|].
  exact (method_call_no_match_only_logs (env := test_environment)
           "s" "/org/y" "org.x.Iface" "Set" 7 get_only_skeleton the_world
           eq_refl eq_refl).
Defined.

(** C3 as stated fails: after the adapter has handled a call that no
    entry matches, the invocation 7 has not been completed with an
    unknown-method error; it is still pending. *)
Lemma method_call_no_match_left_pending :
  first_match (vt_dispatchers (if_vtable get_only_skeleton))
    "s" "/org/y" "org.x.Iface" "Set" = None
  /\ ~ exists w' text,
         interface_skeleton_ex_method_call (env := test_environment)
           "s" "/org/y" "org.x.Iface" "Set" 7 get_only_skeleton the_world = Some w'
         /\ w_completed w' !! 7
            = Some (ReturnDBusError "org.freedesktop.DBus.Error.UnknownMethod" text).
Proof.
  split; [reflexivity|].
  intros (w' & text & H1 & H2). vm_compute in H1. injection H1 as <-.
  vm_compute in H2. discriminate H2.
Qed.

(** C4 (as amended). When the first match is asynchronous and
    [pthread_create] fails, the result is false, the value that a call
    without match gives as well; the failure shows in the log alone, as an
    error line after the debug line. No invocation is completed, no thread
    exists that did not before, and [pthread_create] has been called once. *)
Theorem dispatch_launch_failure {env : Environment}
    (ds : list GDBusMethodCallDispatcher) (sender path interface method : string)
    (invocation userdata : pointer) (w : World) (d : GDBusMethodCallDispatcher)
    (h : handler_fn) :
  first_match ds sender path interface method = Some d ->
  d_handler d = Some h ->
  d_asynchronous_call d = true ->
  hd 0 (w_pthread_create w) <> 0 ->
  exists w',
    g_dbus_dispatch_method_call ds sender path interface method invocation userdata w
      = Some (false, w')
    /\ w_completed w' = w_completed w
    /\ w_threads w' = w_threads w
    /\ w_pthread_create w' = tl (w_pthread_create w)
    /\ w_pthread_detach w' = w_pthread_detach w
    /\ w_log w' = (w_log w ++ [LogDebug (msg_called interface method path);
                               LogError (msg_create_failed (hd 0 (w_pthread_create w)))])%list.
Proof.
  intros Hm Hh Ha Hc. rewrite dispatch_scan, Hm, Hh, Ha.
  destruct (dispatch_matched_create_failed h path interface method invocation userdata w Hc)
    as (w' & -> & Hw).
  now exists w'.
Qed.

Lemma dispatch_launch_failure_witness :
  hd 0 (w_pthread_create world_no_threads) <> 0
  /\ exists w',
       g_dbus_dispatch_method_call (env := test_environment)
         scenario_table "s" "/org/y" "org.x.Iface" "Set" 7 0 world_no_threads
       = Some (false, w')
       /\ w_completed w' = w_completed world_no_threads
       /\ w_threads w' = w_threads world_no_threads
       /\ w_pthread_create w' = tl (w_pthread_create world_no_threads)
       /\ w_pthread_detach w' = w_pthread_detach world_no_threads
       /\ w_log w'
          = (w_log world_no_threads
             ++ [LogDebug (msg_called "org.x.Iface" "Set" "/org/y");
                 LogError (msg_create_failed (env := test_environment)
                             (hd 0 (w_pthread_create world_no_threads)))])%list.
Proof.
  assert (Hc : hd 0 (w_pthread_create world_no_threads) <> 0) by (intros [=]).
  split; [exact Hc|].
  exact (dispatch_launch_failure (env := test_environment)
           scenario_table "s" "/org/y" "org.x.Iface" "Set" 7 0 world_no_threads
           _ 2 eq_refl eq_refl eq_refl Hc).
Defined.

(** C4 as stated fails: the call whose worker cannot be created and the
    call that no entry matches give the same result to the caller. *)
Lemma launch_failure_returns_as_no_match :
  is_Some (first_match scenario_table "s" "/org/y" "org.x.Iface" "Set")
  /\ first_match get_only_table "s" "/org/y" "org.x.Iface" "Set" = None
  /\ fst <$> g_dbus_dispatch_method_call (env := test_environment)
               scenario_table "s" "/org/y" "org.x.Iface" "Set" 7 0 world_no_threads
     = fst <$> g_dbus_dispatch_method_call (env := test_environment)
                 get_only_table "s" "/org/y" "org.x.Iface" "Set" 7 0 world_no_threads.
Proof.
  split; [eexists; reflexivity|]. split; reflexivity.
Qed.

(** C10. When the first match is asynchronous, [pthread_create] succeeds
    and [pthread_detach] fails, the result is false although the worker
    exists: the job is on the heap, the joinable thread has it as argument,
    and its body calls the handler of the matched entry on the invocation.
    So a false result does not tell that no handler was invoked. *)
Theorem dispatch_detach_failure {env : Environment}
    (ds : list GDBusMethodCallDispatcher) (sender path interface method : string)
    (invocation userdata : pointer) (w : World) (d : GDBusMethodCallDispatcher)
    (h : handler_fn) :
  first_match ds sender path interface method = Some d ->
  d_handler d = Some h ->
  d_asynchronous_call d = true ->
  hd 0 (w_pthread_create w) = 0 ->
  hd 0 (w_pthread_detach w) <> 0 ->
  exists w',
    g_dbus_dispatch_method_call ds sender path interface method invocation userdata w
      = Some (false, w')
    /\ worker_started false h invocation userdata w w'
    /\ w_log w' = (w_log w ++ [LogDebug (msg_called interface method path);
                               LogError (msg_detach_failed (hd 0 (w_pthread_detach w)))])%list.
Proof.
  intros Hm Hh Ha Hc Hd. rewrite dispatch_scan, Hm, Hh, Ha.
  destruct (dispatch_matched_detach_failed h path interface method invocation userdata w Hc Hd)
    as (w' & -> & Hw).
  now exists w'.
Qed.

Lemma dispatch_detach_failure_witness :
  hd 0 (w_pthread_create world_no_detach) = 0
  /\ hd 0 (w_pthread_detach world_no_detach) <> 0
  /\ exists w',
       g_dbus_dispatch_method_call (env := test_environment)
         scenario_table "s" "/org/y" "org.x.Iface" "Set" 7 0 world_no_detach
       = Some (false, w')
       /\ worker_started (env := test_environment) false 2 7 0 world_no_detach w'
       /\ w_log w'
          = (w_log world_no_detach
             ++ [LogDebug (msg_called "org.x.Iface" "Set" "/org/y");
                 LogError (msg_detach_failed (env := test_environment)
                             (hd 0 (w_pthread_detach world_no_detach)))])%list.
Proof.
  assert (Hd : hd 0 (w_pthread_detach world_no_detach) <> 0) by (intros [=]).
  split; [reflexivity|]. split; [exact Hd|].
  exact (dispatch_detach_failure (env := test_environment)
           scenario_table "s" "/org/y" "org.x.Iface" "Set" 7 0 world_no_detach
           _ 2 eq_refl eq_refl eq_refl eq_refl Hd).
Defined.

(** The same run, carried on: once the scheduler lets the worker run, the
    handler 2 has answered the invocation 7 and the job is freed. *)
Example detach_failure_handler_answers :
  match g_dbus_dispatch_method_call (env := test_environment)
          scenario_table "s" "/org/y" "org.x.Iface" "Set" 7 0 world_no_detach with
  | Some (result, w') =>
      result = false
      /\ w_completed w' !! 7 = None
      /\ match thread_run (env := test_environment) 1 w' with
         | Some w'' =>
             w_completed w'' !! 7 = Some (ReturnValue (Some (GV_tuple [GV_number Gx 2])))
             /\ w_heap w'' !! 4096 = None
             /\ w_threads w'' = []
         | None => False
         end
  | None => False
  end.
Proof. vm_compute. repeat split. Qed.

(** ** The blocking helpers *)

Lemma g_variant_new_ss a b :
  g_variant_new "(ss)" [Arg_string a; Arg_string b]
  = Some (GV_tuple [GV_string a; GV_string b]).
Proof. reflexivity. Qed.

Lemma g_variant_new_ssv a b v :
  g_variant_new "(ssv)" [Arg_string a; Arg_string b; Arg_variant v]
  = Some (GV_tuple [GV_string a; GV_string b; GV_variant v]).
Proof. reflexivity. Qed.

Lemma g_variant_new_properties_changed interface props :
  property_bag props ->
  g_variant_new "(sa{sv}as)" [Arg_string interface; Arg_builder props; Arg_builder None]
  = Some (GV_tuple [GV_string interface;
                    GV_array (TDictEntry (TBasic Gs) TVariant) (bag_children props);
                    GV_array (TBasic Gs) []]).
Proof.
  destruct props as [[t children]|]; simpl; [|reflexivity].
  intros ->. reflexivity.
Qed.

Lemma is_null_g_set_error error e : is_null (g_set_error error e) = is_null error.
Proof. now destruct error as [[?|]|]. Qed.

Lemma is_null_to_gerror message error :
  is_null (snd (g_dbus_message_to_gerror message error)) = is_null error.
Proof.
  unfold g_dbus_message_to_gerror.
  destruct (is_error_type (msg_type message)); [|done].
  destruct (msg_error_name message); simpl; apply is_null_g_set_error.
Qed.

(** An error message always makes an error: the slot behind a non-null
    pointer is set afterwards. *)
Lemma to_gerror_sets message slot :
  is_error_type (msg_type message) = true ->
  exists e, snd (g_dbus_message_to_gerror message (Some slot)) = Some (Some e).
Proof.
  unfold g_dbus_message_to_gerror. intros ->.
  destruct (msg_error_name message), slot; simpl; eauto.
Qed.

Section Helpers.
Context {env : Environment}.

(** On an error message from the peer, the two reading helpers give
    [NULL] and the converted error, whatever the error pointer is. *)
Lemma get_managed_objects_error_reply conn name path error w rep :
  bus_reply conn
    {| msg_type := G_DBUS_MESSAGE_TYPE_METHOD_CALL; msg_destination := Some name;
       msg_path := path; msg_interface := DBUS_IFACE_OBJECT_MANAGER;
       msg_member := "GetManagedObjects"; msg_error_name := None; msg_body := None |}
    = inl rep ->
  is_error_type (msg_type rep) = true ->
  exists w',
    g_dbus_get_managed_objects conn name path error w
    = (None, snd (g_dbus_message_to_gerror rep error), w').
Proof.
  intros Hrep Herr.
  unfold g_dbus_get_managed_objects, g_dbus_message_new_method_call,
    g_dbus_connection_send_message_with_reply_sync.
  rewrite Hrep. unfold g_dbus_message_get_message_type. rewrite Herr. eauto.
Qed.

Lemma get_property_error_reply conn service path interface property error w rep :
  bus_reply conn
    {| msg_type := G_DBUS_MESSAGE_TYPE_METHOD_CALL; msg_destination := Some service;
       msg_path := path; msg_interface := DBUS_IFACE_PROPERTIES;
       msg_member := "Get"; msg_error_name := None;
       msg_body := Some (GV_tuple [GV_string interface; GV_string property]) |}
    = inl rep ->
  is_error_type (msg_type rep) = true ->
  exists w',
    g_dbus_get_property conn service path interface property error w
    = Some (None, snd (g_dbus_message_to_gerror rep error), w').
Proof.
  intros Hrep Herr.
  unfold g_dbus_get_property, g_dbus_message_new_method_call,
    g_dbus_connection_send_message_with_reply_sync.
  rewrite g_variant_new_ss. unfold g_dbus_message_set_body. cbn [msg_type
    msg_destination msg_path msg_interface msg_member msg_error_name msg_body].
  rewrite Hrep. unfold g_dbus_message_get_message_type. rewrite Herr. eauto.
Qed.

(** The result of [g_dbus_set_property] is the null test of its pointer
    argument, whatever the peer and the transport do. *)
Lemma set_property_is_null conn service path interface property value error w :
  exists error' w',
    g_dbus_set_property conn service path interface property value error w
      = Some (is_null error, error', w')
    /\ is_null error' = is_null error.
Proof.
  unfold g_dbus_set_property, g_dbus_message_new_method_call,
    g_dbus_connection_send_message_with_reply_sync.
  rewrite g_variant_new_ssv.
  destruct (bus_reply conn _) as [rep|e].
  - destruct (is_error_type (g_dbus_message_get_message_type rep)).
    + rewrite is_null_to_gerror. eexists _, _. split; [reflexivity|].
      apply is_null_to_gerror.
    + eauto.
  - rewrite is_null_g_set_error. eexists _, _. split; [reflexivity|].
    apply is_null_g_set_error.
Qed.

(** With a pointer to an empty slot, a reply that is no error leaves the
    slot empty, and still the result is false. *)
Lemma set_property_non_error_reply conn service path interface property value w rep :
  bus_reply conn
    {| msg_type := G_DBUS_MESSAGE_TYPE_METHOD_CALL; msg_destination := Some service;
       msg_path := path; msg_interface := DBUS_IFACE_PROPERTIES;
       msg_member := "Set"; msg_error_name := None;
       msg_body := Some (GV_tuple [GV_string interface; GV_string property;
                                   GV_variant value]) |}
    = inl rep ->
  is_error_type (msg_type rep) = false ->
  exists w',
    g_dbus_set_property conn service path interface property value (Some None) w
    = Some (false, Some None, w').
Proof.
  intros Hrep Herr.
  unfold g_dbus_set_property, g_dbus_message_new_method_call,
    g_dbus_connection_send_message_with_reply_sync.
  rewrite g_variant_new_ssv. unfold g_dbus_message_set_body. cbn [msg_type
    msg_destination msg_path msg_interface msg_member msg_error_name msg_body].
  rewrite Hrep. unfold g_dbus_message_get_message_type. rewrite Herr. eauto.
Qed.

(** With [NULL] for the pointer, an error message from the peer gives
    true. *)
Lemma set_property_error_reply_null conn service path interface property value w rep :
  bus_reply conn
    {| msg_type := G_DBUS_MESSAGE_TYPE_METHOD_CALL; msg_destination := Some service;
       msg_path := path; msg_interface := DBUS_IFACE_PROPERTIES;
       msg_member := "Set"; msg_error_name := None;
       msg_body := Some (GV_tuple [GV_string interface; GV_string property;
                                   GV_variant value]) |}
    = inl rep ->
  is_error_type (msg_type rep) = true ->
  exists w',
    g_dbus_set_property conn service path interface property value None w
    = Some (true, None, w').
Proof.
  intros Hrep Herr.
  unfold g_dbus_set_property, g_dbus_message_new_method_call,
    g_dbus_connection_send_message_with_reply_sync.
  rewrite g_variant_new_ssv. unfold g_dbus_message_set_body. cbn [msg_type
    msg_destination msg_path msg_interface msg_member msg_error_name msg_body].
  rewrite Hrep. unfold g_dbus_message_get_message_type. rewrite Herr.
  unfold g_dbus_message_to_gerror. rewrite Herr.
  destruct (msg_error_name rep); simpl; eauto.
Qed.

End Helpers.

(** C5 (the code departs from it). The service [org.bluez] answers [Set]
    with a method return and no error is produced, the slot behind the
    error pointer stays empty; yet [g_dbus_set_property] gives false. *)
Theorem set_property_success_reported_as_failure :
  test_peer 1
    {| msg_type := G_DBUS_MESSAGE_TYPE_METHOD_CALL; msg_destination := Some "org.bluez";
       msg_path := "/org/x"; msg_interface := "org.freedesktop.DBus.Properties";
       msg_member := "Set"; msg_error_name := None;
       msg_body := Some (GV_tuple [GV_string "org.x.Iface"; GV_string "Volume";
                                   GV_variant (GV_number Gi 50)]) |}
    = inl (method_return (GV_tuple []))
  /\ (fun r => (r.1.1, r.1.2))
       <$> g_dbus_set_property (env := test_environment) 1
             "org.bluez" "/org/x" "org.x.Iface" "Volume" (GV_number Gi 50)
             (Some None) the_world
     = Some (false, Some None).
Proof. split; reflexivity. Qed.

(** C6. The result of [g_dbus_set_property] is the null test of the error
    pointer that the caller passed: true for [NULL], false for any other
    pointer, whatever the reply to the request was. *)
Theorem set_property_returns_null_test {env : Environment}
    (conn : pointer) (service path interface property : string)
    (value : GVariant) (error : GError_out) (w : World) :
  exists error' w',
    g_dbus_set_property conn service path interface property value error w
      = Some (is_null error, error', w')
    /\ (error = None -> is_null error = true)
    /\ (forall slot, error = Some slot -> is_null error = false).
Proof.
  destruct (set_property_is_null conn service path interface property value error w)
    as (error' & w' & Heq & _).
  exists error', w'. split; [exact Heq|]. split.
  - now intros ->.
  - now intros slot ->.
Qed.

(** C7 (the code departs from it). The service [org.broken] answers with
    an error message. Called with [NULL] for the error pointer,
    [g_dbus_set_property] gives true, the success outcome, where
    [g_dbus_get_property] on the same peer gives [NULL]. *)
Theorem set_property_error_reply_reported_as_success :
  test_peer 1
    {| msg_type := G_DBUS_MESSAGE_TYPE_METHOD_CALL; msg_destination := Some "org.broken";
       msg_path := "/org/x"; msg_interface := "org.freedesktop.DBus.Properties";
       msg_member := "Set"; msg_error_name := None;
       msg_body := Some (GV_tuple [GV_string "org.x.Iface"; GV_string "Volume";
                                   GV_variant (GV_number Gi 50)]) |}
    = inl (error_reply "org.freedesktop.DBus.Error.UnknownObject" "No such object")
  /\ (fun r => (r.1.1, r.1.2))
       <$> g_dbus_set_property (env := test_environment) 1
             "org.broken" "/org/x" "org.x.Iface" "Volume" (GV_number Gi 50)
             None the_world
     = Some (true, None)
  /\ (fun r => (r.1.1, r.1.2))
       <$> g_dbus_get_property (env := test_environment) 1
             "org.broken" "/org/x" "org.x.Iface" "Volume" None the_world
     = Some (None, None).
Proof. repeat split. Qed.

(** C8. [g_dbus_connection_emit_properties_changed] hands one message to
    the connection and changes nothing else: a signal without destination
    (a broadcast) on the given path, of the properties interface, named
    [PropertiesChanged], whose body is the tuple of the given interface
    name, the entries of the given property bag and the empty string array,
    of type [(sa{sv}as)]. Its result is the transport's. *)
Theorem emit_properties_changed_one_signal {env : Environment}
    (conn : pointer) (path interface : string) (props : option GVariantBuilder)
    (error : GError_out) (w : World) :
  property_bag props ->
  let payload :=
    GV_tuple [GV_string interface;
              GV_array (TDictEntry (TBasic Gs) TVariant) (bag_children props);
              GV_array (TBasic Gs) []] in
  let signal :=
    {| msg_type := G_DBUS_MESSAGE_TYPE_SIGNAL; msg_destination := None;
       msg_path := path; msg_interface := DBUS_IFACE_PROPERTIES;
       msg_member := "PropertiesChanged"; msg_error_name := None;
       msg_body := Some payload |} in
  g_variant_get_type_string payload = "(sa{sv}as)"
  /\ exists ok error',
       g_dbus_connection_emit_properties_changed conn path interface props error w
         = Some (ok, error',
                 set_bus (w_bus w ++ [{| rq_connection := conn; rq_message := signal |}])%list w)
       /\ (ok = true <-> bus_send conn signal = None).
Proof.
  intros Hbag payload signal. split; [reflexivity|].
  unfold g_dbus_connection_emit_properties_changed.
  rewrite (g_variant_new_properties_changed _ _ Hbag).
  unfold g_dbus_connection_emit_signal. fold payload. fold signal.
  destruct (bus_send conn signal) as [e|]; eexists _, _; (split; [reflexivity|]).
  - split; intros [=].
  - done.
Qed.

Lemma emit_properties_changed_one_signal_witness :
  property_bag (Some volume_bag)
  /\ exists ok error',
       g_dbus_connection_emit_properties_changed (env := test_environment)
         1 "/org/x" "org.x.Iface" (Some volume_bag) (Some None) the_world
       = Some (ok, error',
               set_bus
                 [{| rq_connection := 1;
                     rq_message :=
                       {| msg_type := G_DBUS_MESSAGE_TYPE_SIGNAL; msg_destination := None;
                          msg_path := "/org/x";
                          msg_interface := "org.freedesktop.DBus.Properties";
                          msg_member := "PropertiesChanged"; msg_error_name := None;
                          msg_body :=
                            Some (GV_tuple
                                    [GV_string "org.x.Iface";
                                     GV_array (TDictEntry (TBasic Gs) TVariant)
                                       [GV_dict_entry (GV_string "Volume")
                                          (GV_variant (GV_number Gi 50))];
                                     GV_array (TBasic Gs) []]) |} |}]
                 the_world)
       /\ (ok = true <-> None = None :> option GError).
Proof.
  split; [reflexivity|].
  exact (proj2 (emit_properties_changed_one_signal (env := test_environment)
                  1 "/org/x" "org.x.Iface" (Some volume_bag) (Some None) the_world
                  eq_refl)).
Defined.

(** C9. When the peer answers [GetManagedObjects] with a message that is
    no error and whose body holds no object, [g_dbus_get_managed_objects]
    gives an iterator, not [NULL], leaves the error as it was, and the
    iterator is at its end at once. *)
Theorem get_managed_objects_no_children {env : Environment}
    (conn : pointer) (name path : string) (error : GError_out) (w : World)
    (rep : GDBusMessage) :
  bus_reply conn
    {| msg_type := G_DBUS_MESSAGE_TYPE_METHOD_CALL; msg_destination := Some name;
       msg_path := path; msg_interface := DBUS_IFACE_OBJECT_MANAGER;
       msg_member := "GetManagedObjects"; msg_error_name := None; msg_body := None |}
    = inl rep ->
  is_error_type (msg_type rep) = false ->
  msg_body rep = Some no_managed_objects ->
  exists it w',
    g_dbus_get_managed_objects conn name path error w = (Some it, error, w')
    /\ g_variant_iter_next_value it = None.
Proof.
  intros Hrep Herr Hbody.
  unfold g_dbus_get_managed_objects, g_dbus_message_new_method_call,
    g_dbus_connection_send_message_with_reply_sync.
  rewrite Hrep. unfold g_dbus_message_get_message_type, g_dbus_message_get_body.
  rewrite Herr, Hbody.
  change (g_variant_get (Some no_managed_objects) "(a{oa{sa{sv}}})")
    with (Some [Out_iter []]).
  eexists _, _. split; reflexivity.
Qed.

Lemma get_managed_objects_no_children_witness :
  exists it w',
    g_dbus_get_managed_objects (env := test_environment)
      1 "org.bluez" "/org/bluez" (Some None) the_world = (Some it, Some None, w')
    /\ g_variant_iter_next_value it = None.
Proof.
  exact (get_managed_objects_no_children (env := test_environment)
           1 "org.bluez" "/org/bluez" (Some None) the_world
           (method_return no_managed_objects) eq_refl eq_refl eq_refl).
Defined.

(** * Part III: further properties of the code *)

(** ** The dispatcher *)

Lemma table_entries_cut pre e post :
  is_sentinel e = true ->
  table_entries (pre ++ e :: post) = table_entries (pre ++ [e]).
Proof.
  intros He. induction pre as [|x pre IH]; simpl.
  - now rewrite He.
  - destruct (is_sentinel x); [done|]. now rewrite IH.
Qed.



(** X1. A table that has, before its sentinel, an entry whose four
    matchers are all [NULL] leaves no call unmatched: whatever the call,
    some entry is the first match and the result is that of dispatching
    its handler. *)
Theorem dispatch_catch_all {env : Environment}
    (ds : list GDBusMethodCallDispatcher) (d : GDBusMethodCallDispatcher)
    (sender path interface method : string) (invocation userdata : pointer)
    (w : World) :
  In d (table_entries ds) ->
  all_wildcards d ->
  exists d' h,
    first_match ds sender path interface method = Some d'
    /\ d_handler d' = Some h
    /\ g_dbus_dispatch_method_call ds sender path interface method invocation userdata w
       = Some (dispatch_matched h (d_asynchronous_call d')
                 path interface method invocation userdata w).
Proof.
  intros Hin (Hs & Hp & Hi & Hm).
  destruct (first_match ds sender path interface method) as [d'|] eqn:Hf.
  - destruct (first_match_handler _ _ _ _ _ _ Hf) as [h Hh].
    exists d', h. split; [done|]. split; [done|].
    now rewrite dispatch_scan, Hf, Hh.
  - unfold first_match in Hf.
    pose proof (find_none _ _ Hf d Hin) as Hno.
    unfold entry_matches in Hno. now rewrite Hs, Hp, Hi, Hm in Hno.
Qed.

Lemma dispatch_catch_all_witness :
  exists d' h,
    first_match scenario_table "any" "/where" "what.ever" "Method" = Some d'
    /\ d_handler d' = Some h
    /\ g_dbus_dispatch_method_call (env := test_environment)
         scenario_table "any" "/where" "what.ever" "Method" 7 0 the_world
       = Some (dispatch_matched (env := test_environment) h (d_asynchronous_call d')
                 "/where" "what.ever" "Method" 7 0 the_world).
Proof.
  refine (dispatch_catch_all (env := test_environment) scenario_table
            {| d_sender := None; d_path := None; d_interface := None; d_method := None;
               d_handler := Some 2; d_asynchronous_call := true |}
            "any" "/where" "what.ever" "Method" 7 0 the_world _ _).
  - right. left. reflexivity.
  - repeat split.
Defined.

(** X2. An entry whose handler is [NULL] ends the table, whatever its
    matchers are: what stands behind it never takes part, so the result is
    that of the table cut after it. *)
Theorem dispatch_stops_at_sentinel {env : Environment}
    (pre post : list GDBusMethodCallDispatcher) (e : GDBusMethodCallDispatcher)
    (sender path interface method : string) (invocation userdata : pointer)
    (w : World) :
  d_handler e = None ->
  g_dbus_dispatch_method_call (pre ++ e :: post)
    sender path interface method invocation userdata w
  = g_dbus_dispatch_method_call (pre ++ [e])
      sender path interface method invocation userdata w.
Proof.
  intros He%is_sentinel_true. rewrite !dispatch_scan. unfold first_match.
  rewrite (table_entries_cut pre e post He).
  assert (Ht : forall l, existsb is_sentinel (pre ++ e :: l) = true).
  { intros l. rewrite existsb_app. simpl. rewrite He. now rewrite orb_true_r. }
  now rewrite (Ht post), (Ht []).
Qed.

Lemma dispatch_stops_at_sentinel_witness :
  g_dbus_dispatch_method_call (env := test_environment)
    (get_only_table ++ scenario_table) "s" "/org/y" "org.x.Iface" "Set" 7 0 the_world
  = Some (false, the_world).
Proof.
  exact (dispatch_stops_at_sentinel (env := test_environment)
           [ {| d_sender := None; d_path := Some "/org/x"; d_interface := None;
                d_method := Some "Get"; d_handler := Some 1;
                d_asynchronous_call := false |} ]
           scenario_table sentinel "s" "/org/y" "org.x.Iface" "Set" 7 0 the_world
           eq_refl).
Defined.

(** X3. The scan ends inside the array exactly when some entry matches
    the call or the table has a sentinel; otherwise it reads past the last
    entry. *)
Theorem dispatch_defined_iff {env : Environment}
    (ds : list GDBusMethodCallDispatcher) (sender path interface method : string)
    (invocation userdata : pointer) (w : World) :
  is_Some (g_dbus_dispatch_method_call ds sender path interface method
             invocation userdata w)
  <-> is_Some (first_match ds sender path interface method) \/ sentinel_terminated ds.
Proof.
  rewrite dispatch_scan. unfold sentinel_terminated.
  destruct (first_match ds sender path interface method) as [d|] eqn:Hf.
  - destruct (first_match_handler _ _ _ _ _ _ Hf) as [h ->]. split; eauto.
  - destruct (existsb is_sentinel ds).
    + split; eauto.
    + split.
      * intros [? [=]].
      * intros [[? [=]]|[=]].
Qed.

(** X4. The result is true exactly when some entry matches and its
    handler was dispatched: the first match is not asynchronous, or both
    [pthread_create] and [pthread_detach] return [0]. *)
Theorem dispatch_true_iff {env : Environment}
    (ds : list GDBusMethodCallDispatcher) (sender path interface method : string)
    (invocation userdata : pointer) (w : World) :
  (exists w',
     g_dbus_dispatch_method_call ds sender path interface method invocation userdata w
     = Some (true, w'))
  <-> exists d,
        first_match ds sender path interface method = Some d
        /\ (d_asynchronous_call d = false
            \/ (hd 0 (w_pthread_create w) = 0 /\ hd 0 (w_pthread_detach w) = 0)).
Proof.
  rewrite dispatch_scan.
  destruct (first_match ds sender path interface method) as [d|] eqn:Hf.
  - destruct (first_match_handler _ _ _ _ _ _ Hf) as [h ->].
    destruct (d_asynchronous_call d) eqn:Ha.
    + destruct (Z.eq_dec (hd 0 (w_pthread_create w)) 0) as [Hc|Hc].
      * destruct (Z.eq_dec (hd 0 (w_pthread_detach w)) 0) as [Hd|Hd].
        -- destruct (dispatch_matched_detached h path interface method
                       invocation userdata w Hc Hd) as (w' & -> & _).
           split; eauto.
        -- destruct (dispatch_matched_detach_failed h path interface method
                       invocation userdata w Hc Hd) as (w' & -> & _).
           split.
           ++ intros [? [=]].
           ++ intros (d0 & [= <-] & [Hn|[_ Hn]]); congruence.
      * destruct (dispatch_matched_create_failed h path interface method
                    invocation userdata w Hc) as (w' & -> & _).
        split.
        -- intros [? [=]].
        -- intros (d0 & [= <-] & [Hn|[Hn _]]); congruence.
    + rewrite dispatch_matched_inline. split; eauto.
  - split.
    + destruct (existsb is_sentinel ds); intros [? [=]].
    + intros (? & [=] & _).
Qed.



(** A matcher that is a proper prefix of the field does not match. *)
Example prefix_does_not_match :
  first_match org_only_table "s" "/org/x" "i" "Get" = None
  /\ first_match org_only_table "s" "/org" "i" "Get" <> None.
Proof. split; [reflexivity|discriminate]. Qed.

(** X5. When [pthread_create] fails, the copy of the job made by
    [g_memdup2] stays on the heap: it is not freed, and no thread was made
    that could free it. *)
Theorem dispatch_launch_failure_leaks_job {env : Environment}
    (ds : list GDBusMethodCallDispatcher) (sender path interface method : string)
    (invocation userdata : pointer) (w : World) (d : GDBusMethodCallDispatcher)
    (h : handler_fn) :
  first_match ds sender path interface method = Some d ->
  d_handler d = Some h ->
  d_asynchronous_call d = true ->
  hd 0 (w_pthread_create w) <> 0 ->
  exists w',
    g_dbus_dispatch_method_call ds sender path interface method invocation userdata w
      = Some (false, w')
    /\ w_heap w'
       = <[w_next_addr w :=
             {| cd_handler := h; cd_invocation := invocation; cd_userdata := userdata |}]>
           (w_heap w)
    /\ w_next_addr w' = w_next_addr w + 1
    /\ w_threads w' = w_threads w.
Proof.
  intros Hm Hh Ha Hc. rewrite dispatch_scan, Hm, Hh, Ha.
  apply Z.eqb_neq in Hc.
  unfold dispatch_matched, g_memdup2, pthread_create.
  simpl. rewrite Hc. simpl. rewrite Hc. simpl.
  eexists. split; [reflexivity|]. simpl. repeat split.
Qed.

Lemma dispatch_launch_failure_leaks_job_witness :
  hd 0 (w_pthread_create world_no_threads) <> 0
  /\ exists w',
       g_dbus_dispatch_method_call (env := test_environment)
         scenario_table "s" "/org/y" "org.x.Iface" "Set" 7 0 world_no_threads
       = Some (false, w')
       /\ w_heap w'
          = <[w_next_addr world_no_threads :=
                {| cd_handler := 2; cd_invocation := 7; cd_userdata := 0 |}]>
              (w_heap world_no_threads)
       /\ w_next_addr w' = w_next_addr world_no_threads + 1
       /\ w_threads w' = w_threads world_no_threads.
Proof.
  assert (Hc : hd 0 (w_pthread_create world_no_threads) <> 0) by (intros [=]).
  split; [exact Hc|].
  exact (dispatch_launch_failure_leaks_job (env := test_environment)
           scenario_table "s" "/org/y" "org.x.Iface" "Set" 7 0 world_no_threads
           _ 2 eq_refl eq_refl eq_refl Hc).
Defined.

(** X6. When the worker is created and detached, the job lives exactly as
    long as the worker: the worker's body, run after the dispatch, frees
    it, so that with a handler that leaves the heap alone the heap is
    again what it was before the dispatch. *)
Theorem detached_job_is_freed {env : Environment}
    (ds : list GDBusMethodCallDispatcher) (sender path interface method : string)
    (invocation userdata : pointer) (w : World) (d : GDBusMethodCallDispatcher)
    (h : handler_fn) :
  first_match ds sender path interface method = Some d ->
  d_handler d = Some h ->
  d_asynchronous_call d = true ->
  hd 0 (w_pthread_create w) = 0 ->
  hd 0 (w_pthread_detach w) = 0 ->
  w_heap w !! w_next_addr w = None ->
  (forall w0, w_heap (handler_impl h invocation userdata w0) = w_heap w0) ->
  exists w' w'',
    g_dbus_dispatch_method_call ds sender path interface method invocation userdata w
      = Some (true, w')
    /\ dispatch_method_caller (w_next_addr w) w' = Some w''
    /\ w_heap w'' = w_heap w.
Proof.
  intros Hm Hh Ha Hc Hd Hfresh Hkeep. rewrite dispatch_scan, Hm, Hh, Ha.
  unfold dispatch_matched, g_memdup2, pthread_create, pthread_detach.
  simpl. rewrite Hc. simpl. rewrite Hd. simpl.
  eexists _, _. split; [reflexivity|].
  unfold dispatch_method_caller. simpl. rewrite lookup_insert_eq. simpl.
  split; [reflexivity|]. simpl. rewrite Hkeep. simpl.
  rewrite delete_insert_eq. now apply delete_id.
Qed.

Lemma detached_job_is_freed_witness :
  w_heap the_world !! w_next_addr the_world = None
  /\ (forall w0, w_heap (answering_handler 2 7 0 w0) = w_heap w0)
  /\ exists w' w'',
       g_dbus_dispatch_method_call (env := test_environment)
         scenario_table "s" "/org/y" "org.x.Iface" "Set" 7 0 the_world = Some (true, w')
       /\ dispatch_method_caller (env := test_environment) (w_next_addr the_world) w'
          = Some w''
       /\ w_heap w'' = w_heap the_world.
Proof.
  split; [reflexivity|]. split; [intros w0; reflexivity|].
  exact (detached_job_is_freed (env := test_environment)
           scenario_table "s" "/org/y" "org.x.Iface" "Set" 7 0 the_world
           _ 2 eq_refl eq_refl eq_refl eq_refl eq_refl eq_refl
           (fun w0 => eq_refl)).
Defined.

(** ** The adapter's method entry *)

(** X8. When the first match of the stored table is not asynchronous, the
    adapter runs its handler on the invocation with the user data stored
    in the skeleton, after the debug line, and writes no error line. *)
Theorem method_call_matched_inline {env : Environment}
    (sender path interface method : string) (invocation : pointer)
    (iface : GDBusInterfaceSkeletonEx) (w : World) (d : GDBusMethodCallDispatcher)
    (h : handler_fn) :
  first_match (vt_dispatchers (if_vtable iface)) sender path interface method = Some d ->
  d_handler d = Some h ->
  d_asynchronous_call d = false ->
  interface_skeleton_ex_method_call sender path interface method invocation iface w
  = Some (handler_impl h invocation (if_userdata iface)
            (debug (msg_called interface method path) w)).
Proof.
  intros Hm Hh Ha. unfold interface_skeleton_ex_method_call.
  now rewrite dispatch_scan, Hm, Hh, Ha, dispatch_matched_inline.
Qed.

Lemma method_call_matched_inline_witness :
  interface_skeleton_ex_method_call (env := test_environment)
    "s" "/org/x" "i" "Get" 7 get_only_skeleton the_world
  = Some (answering_handler 1 7 0 (debug "Called: i.Get() on /org/x" the_world)).
Proof.
  exact (method_call_matched_inline (env := test_environment)
           "s" "/org/x" "i" "Get" 7 get_only_skeleton the_world _ 1
           eq_refl eq_refl eq_refl).
Defined.

(** X9. When the first match is asynchronous and [pthread_create] fails,
    the adapter leaves three lines in the log (the debug line, the error
    of the dispatcher and its own error) and completes no invocation. *)
Theorem method_call_launch_failure {env : Environment}
    (sender path interface method : string) (invocation : pointer)
    (iface : GDBusInterfaceSkeletonEx) (w : World) (d : GDBusMethodCallDispatcher)
    (h : handler_fn) :
  first_match (vt_dispatchers (if_vtable iface)) sender path interface method = Some d ->
  d_handler d = Some h ->
  d_asynchronous_call d = true ->
  hd 0 (w_pthread_create w) <> 0 ->
  exists w',
    interface_skeleton_ex_method_call sender path interface method invocation iface w
      = Some w'
    /\ w_log w' = (w_log w ++ [LogDebug (msg_called interface method path);
                               LogError (msg_create_failed (hd 0 (w_pthread_create w)));
                               LogError (msg_dispatch_failed interface method)])%list
    /\ w_completed w' = w_completed w
    /\ w_threads w' = w_threads w.
Proof.
  intros Hm Hh Ha Hc. unfold interface_skeleton_ex_method_call.
  rewrite dispatch_scan, Hm, Hh, Ha.
  destruct (dispatch_matched_create_failed h path interface method invocation
              (if_userdata iface) w Hc) as (w' & -> & Hcompl & Hth & _ & _ & Hlog).
  eexists. split; [reflexivity|]. simpl. rewrite Hlog, <- app_assoc. done.
Qed.

Lemma method_call_launch_failure_witness :
  hd 0 (w_pthread_create world_no_threads) <> 0
  /\ exists w',
       interface_skeleton_ex_method_call (env := test_environment)
         "s" "/org/y" "org.x.Iface" "Set" 7
         {| if_interface_info := 0; if_vtable := scenario_vtable; if_userdata := 0 |}
         world_no_threads = Some w'
       /\ w_log w'
          = (w_log world_no_threads
             ++ [LogDebug (msg_called "org.x.Iface" "Set" "/org/y");
                 LogError (msg_create_failed (env := test_environment)
                             (hd 0 (w_pthread_create world_no_threads)));
                 LogError (msg_dispatch_failed "org.x.Iface" "Set")])%list
       /\ w_completed w' = w_completed world_no_threads
       /\ w_threads w' = w_threads world_no_threads.
Proof.
  assert (Hc : hd 0 (w_pthread_create world_no_threads) <> 0) by (intros [=]).
  split; [exact Hc|].
  exact (method_call_launch_failure (env := test_environment)
           "s" "/org/y" "org.x.Iface" "Set" 7
           {| if_interface_info := 0; if_vtable := scenario_vtable; if_userdata := 0 |}
           world_no_threads _ 2 eq_refl eq_refl eq_refl Hc).
Defined.

(** ** The skeleton objects *)

Section Skeletons.
Context {cb : Callbacks}.

(** The object store after a successful [g_dbus_interface_skeleton_ex_new]. *)
Lemma skeleton_new_unfold type interface_info vtable userdata free o w :
  hd false (ob_new_fails o) = false ->
  g_dbus_interface_skeleton_ex_new type interface_info vtable userdata free o w
  = Some (Some (ob_next o),
          {| ob_instances :=
               <[ob_next o :=
                   {| go_type := type; go_ref_count := 1;
                      go_data := if userdata =? 0 then []
                                 else [("_ud", (userdata, free))];
                      go_skeleton := {| if_interface_info := interface_info;
                                        if_vtable := vtable;
                                        if_userdata := userdata |} |}]>
                 (ob_instances o);
             ob_next := ob_next o + 1;
             ob_new_fails := tl (ob_new_fails o) |},
          w).
Proof.
  intros Hok. unfold g_dbus_interface_skeleton_ex_new, g_object_new.
  rewrite Hok. unfold g_object_set_data_full. cbn [ob_instances].
  rewrite lookup_insert_eq. cbn [go_data List.filter fold_left app].
  unfold set_skeleton, set_instance. cbn [ob_instances ob_next ob_new_fails].
  rewrite lookup_insert_eq.
  cbn [go_type go_ref_count go_data go_skeleton].
  rewrite !insert_insert_eq. reflexivity.
Qed.

End Skeletons.

(** X10. When [g_object_new] gives [NULL], so does
    [g_dbus_interface_skeleton_ex_new]: no instance is made, the free
    function is neither registered nor called, and the user data stays
    with the caller. *)
Theorem skeleton_new_failure {cb : Callbacks}
    (type : Z) (interface_info : pointer) (vtable : GDBusInterfaceSkeletonVTable)
    (userdata : pointer) (free : Z) (o : Objects) (w : World) :
  hd false (ob_new_fails o) = true ->
  exists o',
    g_dbus_interface_skeleton_ex_new type interface_info vtable userdata free o w
      = Some (None, o', w)
    /\ ob_instances o' = ob_instances o.
Proof.
  intros Hfail. unfold g_dbus_interface_skeleton_ex_new, g_object_new.
  rewrite Hfail. eauto.
Qed.

Lemma skeleton_new_failure_witness :
  exists o',
    g_dbus_interface_skeleton_ex_new (cb := test_callbacks)
      1 100 scenario_vtable 500 30 no_memory the_world = Some (None, o', the_world)
    /\ ob_instances o' = ob_instances no_memory.
Proof.
  exact (skeleton_new_failure (cb := test_callbacks)
           1 100 scenario_vtable 500 30 no_memory the_world eq_refl).
Defined.

(** X11. When [g_object_new] succeeds, the new object is of the given
    type, holds one reference, stores the interface description, a copy of
    the vtable and the user data, and has the user data registered under
    [_ud] with the free function; the other objects are as before, and the
    free function has not been called. Its interface description is read
    back by [g_dbus_interface_skeleton_ex_class_get_info]. *)
Theorem skeleton_new_stores {cb : Callbacks}
    (type : Z) (interface_info : pointer) (vtable : GDBusInterfaceSkeletonVTable)
    (userdata : pointer) (free : Z) (o : Objects) (w : World) :
  hd false (ob_new_fails o) = false ->
  userdata <> 0 ->
  exists o',
    g_dbus_interface_skeleton_ex_new type interface_info vtable userdata free o w
      = Some (Some (ob_next o), o', w)
    /\ ob_instances o' !! ob_next o
       = Some {| go_type := type; go_ref_count := 1;
                 go_data := [("_ud", (userdata, free))];
                 go_skeleton := {| if_interface_info := interface_info;
                                   if_vtable := vtable; if_userdata := userdata |} |}
    /\ (forall q, q <> ob_next o -> ob_instances o' !! q = ob_instances o !! q)
    /\ g_dbus_interface_skeleton_ex_class_get_info <$> skeleton_at o' (ob_next o)
       = Some interface_info.
Proof.
  intros Hok Hud. rewrite (skeleton_new_unfold _ _ _ _ _ _ _ Hok).
  apply Z.eqb_neq in Hud. rewrite Hud.
  eexists. split; [reflexivity|]. cbn [ob_instances]. split; [|split].
  - apply lookup_insert_eq.
  - intros q Hq. now apply lookup_insert_ne.
  - unfold skeleton_at. cbn [ob_instances]. now rewrite lookup_insert_eq.
Qed.

Lemma skeleton_new_stores_witness :
  exists o',
    g_dbus_interface_skeleton_ex_new (cb := test_callbacks)
      1 100 scenario_vtable 500 30 no_objects the_world
      = Some (Some (ob_next no_objects), o', the_world)
    /\ ob_instances o' !! ob_next no_objects
       = Some {| go_type := 1; go_ref_count := 1;
                 go_data := [("_ud", (500, 30))];
                 go_skeleton := {| if_interface_info := 100;
                                   if_vtable := scenario_vtable; if_userdata := 500 |} |}
    /\ (forall q, q <> ob_next no_objects ->
          ob_instances o' !! q = ob_instances no_objects !! q)
    /\ g_dbus_interface_skeleton_ex_class_get_info <$> skeleton_at o' (ob_next no_objects)
       = Some 100.
Proof.
  assert (Hud : 500 <> 0) by (intros [=]).
  exact (skeleton_new_stores (cb := test_callbacks)
           1 100 scenario_vtable 500 30 no_objects the_world eq_refl Hud).
Defined.

(** X12. The entries of a skeleton made by
    [g_dbus_interface_skeleton_ex_new] go to what was given at its making:
    a method call is dispatched over the dispatchers of the vtable, a
    property is read, written or listed by the callbacks of the vtable,
    and each of them gets the user data of the skeleton; the error pointer
    and the results pass through as they are. *)
Theorem skeleton_new_forwards {env : Environment} {cb : Callbacks}
    (type : Z) (interface_info : pointer) (vtable : GDBusInterfaceSkeletonVTable)
    (userdata : pointer) (free : Z) (o : Objects) (w : World) :
  hd false (ob_new_fails o) = false ->
  vt_get_property vtable <> 0 ->
  vt_set_property vtable <> 0 ->
  vt_get_properties vtable <> 0 ->
  exists o' iface,
    g_dbus_interface_skeleton_ex_new type interface_info vtable userdata free o w
      = Some (Some (ob_next o), o', w)
    /\ skeleton_at o' (ob_next o) = Some iface
    /\ (forall sender path interface method invocation w0,
          interface_skeleton_ex_method_call sender path interface method invocation iface w0
          = match g_dbus_dispatch_method_call (vt_dispatchers vtable)
                    sender path interface method invocation userdata w0 with
            | None => None
            | Some (true, w1) => Some w1
            | Some (false, w1) => Some (error (msg_dispatch_failed interface method) w1)
            end)
    /\ (forall property error w0,
          interface_skeleton_ex_get_property property error iface w0
          = Some (get_property_impl (vt_get_property vtable) property error userdata w0))
    /\ (forall property value error w0,
          interface_skeleton_ex_set_property property value error iface w0
          = Some (set_property_impl (vt_set_property vtable) property value error
                    userdata w0))
    /\ (forall w0,
          g_dbus_interface_skeleton_ex_class_get_properties iface w0
          = Some (get_properties_impl (vt_get_properties vtable) userdata w0)).
Proof.
  intros Hok Hg Hs Hl. rewrite (skeleton_new_unfold _ _ _ _ _ _ _ Hok).
  apply Z.eqb_neq in Hg, Hs, Hl.
  eexists _, _. split; [reflexivity|]. split.
  { unfold skeleton_at. cbn [ob_instances]. rewrite lookup_insert_eq. reflexivity. }
  unfold interface_skeleton_ex_get_property, interface_skeleton_ex_set_property,
    g_dbus_interface_skeleton_ex_class_get_properties.
  cbn [go_skeleton if_vtable if_userdata]. rewrite Hg, Hs, Hl.
  repeat split.
Qed.

Lemma skeleton_new_forwards_witness :
  exists o' iface,
    g_dbus_interface_skeleton_ex_new (cb := test_callbacks)
      1 100 scenario_vtable 500 30 no_objects the_world
      = Some (Some (ob_next no_objects), o', the_world)
    /\ skeleton_at o' (ob_next no_objects) = Some iface
    /\ (forall sender path interface method invocation w0,
          interface_skeleton_ex_method_call (env := test_environment)
            sender path interface method invocation iface w0
          = match g_dbus_dispatch_method_call (env := test_environment)
                    (vt_dispatchers scenario_vtable)
                    sender path interface method invocation 500 w0 with
            | None => None
            | Some (true, w1) => Some w1
            | Some (false, w1) => Some (error (msg_dispatch_failed interface method) w1)
            end)
    /\ (forall property error w0,
          interface_skeleton_ex_get_property (cb := test_callbacks) property error iface w0
          = Some (get_property_impl (Callbacks := test_callbacks)
                    (vt_get_property scenario_vtable) property error 500 w0))
    /\ (forall property value error w0,
          interface_skeleton_ex_set_property (cb := test_callbacks)
            property value error iface w0
          = Some (set_property_impl (Callbacks := test_callbacks)
                    (vt_set_property scenario_vtable) property value error 500 w0))
    /\ (forall w0,
          g_dbus_interface_skeleton_ex_class_get_properties (cb := test_callbacks) iface w0
          = Some (get_properties_impl (Callbacks := test_callbacks)
                    (vt_get_properties scenario_vtable) 500 w0)).
Proof.
  assert (Hg : vt_get_property scenario_vtable <> 0) by (intros [=]).
  assert (Hs : vt_set_property scenario_vtable <> 0) by (intros [=]).
  assert (Hl : vt_get_properties scenario_vtable <> 0) by (intros [=]).
  exact (skeleton_new_forwards (env := test_environment) (cb := test_callbacks)
           1 100 scenario_vtable 500 30 no_objects the_world eq_refl Hg Hs Hl).
Defined.

(** X13. The free function given to [g_dbus_interface_skeleton_ex_new]
    runs when the last reference of the skeleton is dropped, once, on the
    user data, and not before; the object is gone then, so that no further
    drop can run it again. *)
Theorem skeleton_userdata_freed_once {cb : Callbacks}
    (type : Z) (interface_info : pointer) (vtable : GDBusInterfaceSkeletonVTable)
    (userdata : pointer) (free : Z) (o : Objects) (w : World) :
  hd false (ob_new_fails o) = false ->
  userdata <> 0 ->
  free <> 0 ->
  exists o' o'',
    g_dbus_interface_skeleton_ex_new type interface_info vtable userdata free o w
      = Some (Some (ob_next o), o', w)
    /\ g_object_unref_instance (ob_next o) o' w
       = Some (o'', destroy_notify_impl free userdata w)
    /\ ob_instances o'' !! ob_next o = None
    /\ forall w0, g_object_unref_instance (ob_next o) o'' w0 = None.
Proof.
  intros Hok Hud Hfree. rewrite (skeleton_new_unfold _ _ _ _ _ _ _ Hok).
  apply Z.eqb_neq in Hud, Hfree. rewrite Hud.
  eexists _, _. split; [reflexivity|].
  unfold g_object_unref_instance. cbn [ob_instances]. rewrite lookup_insert_eq.
  cbn [go_ref_count go_data fold_left run_destroy]. rewrite Hfree.
  change (1 <? 1) with false. cbn iota.
  split; [reflexivity|]. cbn [ob_instances]. split.
  - apply lookup_delete_eq.
  - intros w0. now rewrite lookup_delete_eq.
Qed.

Lemma skeleton_userdata_freed_once_witness :
  exists o' o'',
    g_dbus_interface_skeleton_ex_new (cb := test_callbacks)
      1 100 scenario_vtable 500 30 no_objects the_world
      = Some (Some (ob_next no_objects), o', the_world)
    /\ g_object_unref_instance (cb := test_callbacks) (ob_next no_objects) o' the_world
       = Some (o'', debug "userdata freed" the_world)
    /\ ob_instances o'' !! ob_next no_objects = None
    /\ forall w0,
         g_object_unref_instance (cb := test_callbacks) (ob_next no_objects) o'' w0 = None.
Proof.
  assert (Hud : 500 <> 0) by (intros [=]).
  assert (Hfree : 30 <> 0) by (intros [=]).
  exact (skeleton_userdata_freed_once (cb := test_callbacks)
           1 100 scenario_vtable 500 30 no_objects the_world eq_refl Hud Hfree).
Defined.

(** ** The blocking helpers: requests, failures and values *)

Lemma to_gerror_empty_slot message :
  is_error_type (msg_type message) = true ->
  exists e,
    snd (g_dbus_message_to_gerror message (Some None)) = Some (Some e)
    /\ gerror_dbus_name e = msg_error_name message.
Proof.
  unfold g_dbus_message_to_gerror. intros ->.
  destruct (msg_error_name message); simpl; eauto.
Qed.

Lemma iter_loop_all items fuel :
  (length items <= fuel)%nat ->
  g_variant_iter_loop fuel {| iter_remaining := items |} = items.
Proof.
  revert fuel. induction items as [|v items IH]; intros [|fuel] Hlen;
    simpl in *; try done; try lia.
  unfold g_variant_iter_next_value. simpl. f_equal. apply IH. lia.
Qed.

Ltac helper_frame :=
  unfold sent_one; simpl; repeat split; lia.

(** X14. Whatever the peer does, [g_dbus_get_managed_objects] hands one
    message to the connection, the call of [GetManagedObjects] without
    body on the object manager interface of the given service and path,
    drops every reference it took on the request and the reply, and
    changes nothing else. *)
Theorem get_managed_objects_sends_one_request {env : Environment}
    (conn : pointer) (name path : string) (error : GError_out) (w : World) :
  exists objects error' w',
    g_dbus_get_managed_objects conn name path error w = (objects, error', w')
    /\ sent_one
         {| rq_connection := conn;
            rq_message := method_call_message name path
                            DBUS_IFACE_OBJECT_MANAGER "GetManagedObjects" None |}
         w w'.
Proof.
  unfold g_dbus_get_managed_objects, g_dbus_message_new_method_call,
    g_dbus_connection_send_message_with_reply_sync, method_call_message.
  destruct (bus_reply conn _) as [rep|e].
  - destruct (is_error_type (g_dbus_message_get_message_type rep)).
    + eexists _, _, _. split; [reflexivity|]. helper_frame.
    + destruct (g_variant_get (g_dbus_message_get_body rep) "(a{oa{sa{sv}}})")
        as [[|[] [|]]|]; eexists _, _, _; (split; [reflexivity|]); helper_frame.
  - eexists _, _, _. split; [reflexivity|]. helper_frame.
Qed.

(** X15. Whatever the peer does, [g_dbus_get_property] hands one message
    to the connection, the call of [Get] on the properties interface whose
    body is the pair of the interface and property names, of type [(ss)],
    drops every reference it took, and changes nothing else. *)
Theorem get_property_sends_one_request {env : Environment}
    (conn : pointer) (service path interface property : string)
    (error : GError_out) (w : World) :
  let body := GV_tuple [GV_string interface; GV_string property] in
  g_variant_get_type_string body = "(ss)"
  /\ exists value error' w',
       g_dbus_get_property conn service path interface property error w
         = Some (value, error', w')
       /\ sent_one
            {| rq_connection := conn;
               rq_message := method_call_message service path
                               DBUS_IFACE_PROPERTIES "Get" (Some body) |}
            w w'.
Proof.
  intros body. split; [reflexivity|].
  unfold g_dbus_get_property, g_dbus_message_new_method_call,
    g_dbus_connection_send_message_with_reply_sync, method_call_message.
  rewrite g_variant_new_ss. unfold g_dbus_message_set_body. cbn [msg_type
    msg_destination msg_path msg_interface msg_member msg_error_name msg_body].
  destruct (bus_reply conn _) as [rep|e].
  - destruct (is_error_type (g_dbus_message_get_message_type rep)).
    + eexists _, _, _. split; [reflexivity|]. helper_frame.
    + destruct (g_variant_get (g_dbus_message_get_body rep) "(v)")
        as [[|[] [|]]|]; eexists _, _, _; (split; [reflexivity|]); helper_frame.
  - eexists _, _, _. split; [reflexivity|]. helper_frame.
Qed.

(** X16. Whatever the peer does, [g_dbus_set_property] hands one message
    to the connection, the call of [Set] on the properties interface whose
    body is the interface name, the property name and the value wrapped in
    a variant, of type [(ssv)], drops every reference it took, and changes
    nothing else. *)
Theorem set_property_sends_one_request {env : Environment}
    (conn : pointer) (service path interface property : string)
    (value : GVariant) (error : GError_out) (w : World) :
  let body := GV_tuple [GV_string interface; GV_string property; GV_variant value] in
  g_variant_get_type_string body = "(ssv)"
  /\ exists result error' w',
       g_dbus_set_property conn service path interface property value error w
         = Some (result, error', w')
       /\ sent_one
            {| rq_connection := conn;
               rq_message := method_call_message service path
                               DBUS_IFACE_PROPERTIES "Set" (Some body) |}
            w w'.
Proof.
  intros body. split; [reflexivity|].
  unfold g_dbus_set_property, g_dbus_message_new_method_call,
    g_dbus_connection_send_message_with_reply_sync, method_call_message.
  rewrite g_variant_new_ssv. unfold g_dbus_message_set_body. cbn [msg_type
    msg_destination msg_path msg_interface msg_member msg_error_name msg_body].
  destruct (bus_reply conn _) as [rep|e].
  - destruct (is_error_type (g_dbus_message_get_message_type rep));
      eexists _, _, _; (split; [reflexivity|]); helper_frame.
  - eexists _, _, _. split; [reflexivity|]. helper_frame.
Qed.

Lemma request_failure_empty_slot outcome error' :
  request_failure outcome (Some None) = Some error' ->
  exists e, error' = Some (Some e).
Proof.
  destruct outcome as [rep|e]; simpl.
  - destruct (is_error_type (msg_type rep)) eqn:Herr; [|done].
    intros [= <-]. destruct (to_gerror_empty_slot rep Herr) as (e & -> & _). eauto.
  - intros [= <-]. eauto.
Qed.

(** X17. When the request of [g_dbus_get_managed_objects] fails, be it in
    the transport or by an error message of the peer, the result is [NULL]
    and the error pointer gets the transport's error or the converted
    message; through a pointer to an empty slot the caller always finds an
    error. *)
Theorem get_managed_objects_failure {env : Environment}
    (conn : pointer) (name path : string) (error error' : GError_out) (w : World) :
  request_failure
    (bus_reply conn (method_call_message name path
                       DBUS_IFACE_OBJECT_MANAGER "GetManagedObjects" None))
    error = Some error' ->
  (exists w', g_dbus_get_managed_objects conn name path error w = (None, error', w'))
  /\ (error = Some None -> exists e, error' = Some (Some e)).
Proof.
  intros Hfail. split.
  - unfold g_dbus_get_managed_objects, g_dbus_message_new_method_call,
      g_dbus_connection_send_message_with_reply_sync.
    unfold method_call_message, request_failure in Hfail.
    destruct (bus_reply conn _) as [rep|e].
    + unfold g_dbus_message_get_message_type.
      destruct (is_error_type (msg_type rep)); [|done].
      injection Hfail as <-. eauto.
    + injection Hfail as <-. eauto.
  - intros ->. now apply request_failure_empty_slot in Hfail.
Qed.

Lemma get_managed_objects_failure_witness :
  (exists w',
     g_dbus_get_managed_objects (env := test_environment)
       1 "org.broken" "/org/x" (Some None) the_world
     = (None,
        Some (Some {| gerror_dbus_name := Some "org.freedesktop.DBus.Error.UnknownObject";
                      gerror_message :=
                        "GDBus.Error:org.freedesktop.DBus.Error.UnknownObject: No such object" |}),
        w'))
  /\ (Some None = Some None :> GError_out ->
      exists e,
        Some (Some {| gerror_dbus_name := Some "org.freedesktop.DBus.Error.UnknownObject";
                      gerror_message :=
                        "GDBus.Error:org.freedesktop.DBus.Error.UnknownObject: No such object" |})
        = Some (Some e)).
Proof.
  exact (get_managed_objects_failure (env := test_environment)
           1 "org.broken" "/org/x" (Some None) _ the_world eq_refl).
Defined.

(** X18. When the request of [g_dbus_get_property] fails, be it in the
    transport or by an error message of the peer, the result is [NULL] and
    the error pointer gets the transport's error or the converted message;
    through a pointer to an empty slot the caller always finds an error. *)
Theorem get_property_failure {env : Environment}
    (conn : pointer) (service path interface property : string)
    (error error' : GError_out) (w : World) :
  request_failure
    (bus_reply conn
       (method_call_message service path DBUS_IFACE_PROPERTIES "Get"
          (Some (GV_tuple [GV_string interface; GV_string property]))))
    error = Some error' ->
  (exists w',
     g_dbus_get_property conn service path interface property error w
     = Some (None, error', w'))
  /\ (error = Some None -> exists e, error' = Some (Some e)).
Proof.
  intros Hfail. split.
  - unfold g_dbus_get_property, g_dbus_message_new_method_call,
      g_dbus_connection_send_message_with_reply_sync.
    rewrite g_variant_new_ss. unfold g_dbus_message_set_body. cbn [msg_type
      msg_destination msg_path msg_interface msg_member msg_error_name msg_body].
    unfold method_call_message, request_failure in Hfail.
    destruct (bus_reply conn _) as [rep|e].
    + unfold g_dbus_message_get_message_type.
      destruct (is_error_type (msg_type rep)); [|done].
      injection Hfail as <-. eauto.
    + injection Hfail as <-. eauto.
  - intros ->. now apply request_failure_empty_slot in Hfail.
Qed.

Lemma get_property_failure_witness :
  (exists w',
     g_dbus_get_property (env := test_environment)
       1 "org.nobody" "/org/x" "org.x.Iface" "Volume" (Some None) the_world
     = Some (None,
             Some (Some {| gerror_dbus_name := None;
                           gerror_message := "The connection is closed" |}),
             w'))
  /\ (Some None = Some None :> GError_out ->
      exists e,
        Some (Some {| gerror_dbus_name := None;
                      gerror_message := "The connection is closed" |})
        = Some (Some e)).
Proof.
  exact (get_property_failure (env := test_environment)
           1 "org.nobody" "/org/x" "org.x.Iface" "Volume" (Some None) _ the_world
           eq_refl).
Defined.

(** X19. When the peer answers [Get] with a message that is no error and
    whose body is a single variant, [g_dbus_get_property] gives the value
    inside the variant and leaves the error as it was. *)
Theorem get_property_value {env : Environment}
    (conn : pointer) (service path interface property : string)
    (error : GError_out) (w : World) (rep : GDBusMessage) (v : GVariant) :
  bus_reply conn
    (method_call_message service path DBUS_IFACE_PROPERTIES "Get"
       (Some (GV_tuple [GV_string interface; GV_string property])))
    = inl rep ->
  is_error_type (msg_type rep) = false ->
  msg_body rep = Some (GV_tuple [GV_variant v]) ->
  exists w',
    g_dbus_get_property conn service path interface property error w
    = Some (Some v, error, w').
Proof.
  intros Hrep Herr Hbody.
  unfold g_dbus_get_property, g_dbus_message_new_method_call,
    g_dbus_connection_send_message_with_reply_sync.
  rewrite g_variant_new_ss. unfold g_dbus_message_set_body. cbn [msg_type
    msg_destination msg_path msg_interface msg_member msg_error_name msg_body].
  unfold method_call_message in Hrep. rewrite Hrep.
  unfold g_dbus_message_get_message_type, g_dbus_message_get_body.
  rewrite Herr, Hbody.
  change (g_variant_get (Some (GV_tuple [GV_variant v])) "(v)")
    with (Some [Out_variant v]).
  eauto.
Qed.

Lemma get_property_value_witness :
  exists w',
    g_dbus_get_property (env := test_environment)
      1 "org.bluez" "/org/x" "org.x.Iface" "Volume" (Some None) the_world
    = Some (Some (GV_number Gi 50), Some None, w').
Proof.
  exact (get_property_value (env := test_environment)
           1 "org.bluez" "/org/x" "org.x.Iface" "Volume" (Some None) the_world
           (method_return (GV_tuple [GV_variant (GV_number Gi 50)])) (GV_number Gi 50)
           eq_refl eq_refl eq_refl).
Defined.

(** X20. When the peer answers [GetManagedObjects] with a message that is
    no error and whose body is an array of objects,
    [g_dbus_get_managed_objects] gives an iterator over exactly these
    objects: the caller's loop sees them all, each once, in the order of
    the reply. *)
Theorem get_managed_objects_yields_objects {env : Environment}
    (conn : pointer) (name path : string) (error : GError_out) (w : World)
    (rep : GDBusMessage) (objects : list GVariant) (fuel : nat) :
  bus_reply conn
    (method_call_message name path DBUS_IFACE_OBJECT_MANAGER "GetManagedObjects" None)
    = inl rep ->
  is_error_type (msg_type rep) = false ->
  msg_body rep = Some (GV_tuple [GV_array managed_object_type objects]) ->
  (length objects <= fuel)%nat ->
  exists it w',
    g_dbus_get_managed_objects conn name path error w = (Some it, error, w')
    /\ g_variant_iter_loop fuel it = objects.
Proof.
  intros Hrep Herr Hbody Hfuel.
  unfold g_dbus_get_managed_objects, g_dbus_message_new_method_call,
    g_dbus_connection_send_message_with_reply_sync.
  unfold method_call_message in Hrep. rewrite Hrep.
  unfold g_dbus_message_get_message_type, g_dbus_message_get_body.
  rewrite Herr, Hbody.
  change (g_variant_get (Some (GV_tuple [GV_array managed_object_type objects]))
            "(a{oa{sa{sv}}})")
    with (Some [Out_iter objects]).
  eexists _, _. split; [reflexivity|]. now apply iter_loop_all.
Qed.

Lemma get_managed_objects_yields_objects_witness :
  exists it w',
    g_dbus_get_managed_objects (env := two_objects_environment)
      1 "org.bluez" "/" (Some None) the_world = (Some it, Some None, w')
    /\ g_variant_iter_loop 5 it = two_objects.
Proof.
  assert (Hfuel : (length two_objects <= 5)%nat) by (simpl; lia).
  exact (get_managed_objects_yields_objects (env := two_objects_environment)
           1 "org.bluez" "/" (Some None) the_world
           (method_return (GV_tuple [GV_array managed_object_type two_objects]))
           two_objects 5 eq_refl eq_refl eq_refl Hfuel).
Defined.

(** X21. Called with a pointer to an empty slot, [g_dbus_set_property]
    gives false in every case, and the slot tells what happened: it is
    still empty afterwards exactly when the peer answered with a message
    that is no error. *)
Theorem set_property_error_slot_tells {env : Environment}
    (conn : pointer) (service path interface property : string)
    (value : GVariant) (w : World) :
  exists error' w',
    g_dbus_set_property conn service path interface property value (Some None) w
      = Some (false, error', w')
    /\ (error' = Some None
        <-> exists rep,
              bus_reply conn
                (method_call_message service path DBUS_IFACE_PROPERTIES "Set"
                   (Some (GV_tuple [GV_string interface; GV_string property;
                                    GV_variant value])))
              = inl rep
              /\ is_error_type (msg_type rep) = false).
Proof.
  unfold g_dbus_set_property, g_dbus_message_new_method_call,
    g_dbus_connection_send_message_with_reply_sync, method_call_message.
  rewrite g_variant_new_ssv. unfold g_dbus_message_set_body. cbn [msg_type
    msg_destination msg_path msg_interface msg_member msg_error_name msg_body].
  destruct (bus_reply conn _) as [rep|e].
  - unfold g_dbus_message_get_message_type.
    destruct (is_error_type (msg_type rep)) eqn:Herr.
    + destruct (to_gerror_empty_slot rep Herr) as (e & He & _).
      rewrite He. eexists _, _. split; [reflexivity|]. split; [done|].
      intros (rep' & [= <-] & Hno). congruence.
    + eexists _, _. split; [reflexivity|]. split; eauto.
  - eexists _, _. split; [reflexivity|]. simpl. split; [done|].
    intros (rep' & [=] & _).
Qed.

(** X22. When the transport refuses the signal,
    [g_dbus_connection_emit_properties_changed] gives false and passes the
    transport's error through the error pointer; the signal it tried to
    send is the one of the successful case. *)
Theorem emit_properties_changed_failure {env : Environment}
    (conn : pointer) (path interface : string) (props : option GVariantBuilder)
    (error : GError_out) (w : World) (e : GError) :
  property_bag props ->
  let signal :=
    {| msg_type := G_DBUS_MESSAGE_TYPE_SIGNAL; msg_destination := None;
       msg_path := path; msg_interface := DBUS_IFACE_PROPERTIES;
       msg_member := "PropertiesChanged"; msg_error_name := None;
       msg_body :=
         Some (GV_tuple [GV_string interface;
                         GV_array (TDictEntry (TBasic Gs) TVariant) (bag_children props);
                         GV_array (TBasic Gs) []]) |} in
  bus_send conn signal = Some e ->
  g_dbus_connection_emit_properties_changed conn path interface props error w
  = Some (false, g_set_error error e,
          set_bus (w_bus w ++ [{| rq_connection := conn; rq_message := signal |}])%list w).
Proof.
  intros Hbag signal Hsend.
  unfold g_dbus_connection_emit_properties_changed.
  rewrite (g_variant_new_properties_changed _ _ Hbag).
  unfold g_dbus_connection_emit_signal. fold signal. now rewrite Hsend.
Qed.

Lemma emit_properties_changed_failure_witness :
  property_bag None
  /\ fst <$> g_dbus_connection_emit_properties_changed (env := two_objects_environment)
               1 "/org/x" "org.x.Iface" None (Some None) the_world
     = Some (false,
             Some (Some {| gerror_dbus_name := None;
                           gerror_message := "The connection is closed" |})).
Proof.
  split; [exact I|].
  exact (f_equal (fmap fst)
           (emit_properties_changed_failure (env := two_objects_environment)
              1 "/org/x" "org.x.Iface" None (Some None) the_world
              {| gerror_dbus_name := None; gerror_message := "The connection is closed" |}
              I eq_refl)).
Defined.
